(** * bloat: the session / authentication gateway

    A shallow embedding of [service/auth.go] (the decorator that resolves a
    session into a client, checks the CSRF token and delegates) and of the
    sign-in half of [service/service.go] ([GetAuthUrl], [GetUserToken]),
    together with the request-context helpers of the HTTP handlers.

    Go functions return tuples [(values, err)]; they are modelled as
    functions from a [World] (the two repositories and the trace of the
    effects performed so far) to their results and the next [World]. *)

From Stdlib Require Import String Ascii ZArith NArith Decimal DecimalString DecimalN.
From stdpp Require Import base option list gmap strings.

Local Open Scope string_scope.

(** ** Errors *)

(** [ErrInvalidSession], [ErrInvalidCSRFToken] are declared in auth.go,
    [ErrInvalidArgument], [ErrInvalidToken], [ErrInvalidClient] in service.go;
    [model.ErrAppNotFound] is the sentinel service.go compares against.
    [ErrSessionNotFound] and [ErrStorage] are the remaining repository
    failures, [ErrRemote] a failure of a collaborator across the network or
    of a standard-library decoder. *)
Inductive error : Type :=
| ErrInvalidSession
| ErrInvalidCSRFToken
| ErrInvalidArgument
| ErrInvalidToken
| ErrInvalidClient
| ErrAppNotFound
| ErrSessionNotFound
| ErrStorage (msg : string)
| ErrRemote (msg : string).

#[global] Instance error_eq_dec : EqDecision error.
Proof. solve_decision. Defined.

Inductive result (A : Type) : Type :=
| Ok (a : A)
| Err (e : error).
Arguments Ok {A} a.
Arguments Err {A} e.

(** ** strings *)

(** [strings.HasPrefix s prefix]. *)
Definition HasPrefix (s pre : string) : bool := String.prefix pre s.

(** A domain carries a scheme when the separator of scheme and authority
    occurs in it. *)
Definition hasScheme (s : string) : bool :=
  match String.index 0 "://" s with
  | Some _ => true
  | None => false
  end.

(** ** context.Context *)

Module context.

(** The dynamically typed values a context can hold. *)
Inductive Value : Type :=
| VString (s : string)
| VInt (n : Z)
| VBool (b : bool).

(** A context is the chain of [WithValue] layers, innermost first. *)
Definition Context : Type := list (string * Value).

Definition Background : Context := [].

Definition WithValue (ctx : Context) (key : string) (val : Value) : Context :=
  (key, val) :: ctx.

(** [ctx.Value(key)]: the innermost layer holding [key], or nil. *)
Fixpoint Value_of (ctx : Context) (key : string) : option Value :=
  match ctx with
  | [] => None
  | (k, v) :: rest => if String.eqb k key then Some v else Value_of rest key
  end.

(** The comma-ok type assertion [v.(string)]. *)
Definition as_string (v : option Value) : string * bool :=
  match v with
  | Some (VString s) => (s, true)
  | _ => ("", false)
  end.

End context.

(** ** package mastodon (the remote API client, at its interface) *)

Module mastodon.

Record Config : Type := mkConfig {
  Server : string;
  ClientID : string;
  ClientSecret : string;
  AccessToken : string }.

Record Client : Type := mkClient { config : Config }.

Definition NewClient (c : Config) : Client := mkClient c.

Record AppConfig : Type := mkAppConfig {
  app_Server : string;
  app_ClientName : string;
  app_Scopes : string;
  app_Website : string;
  app_RedirectURIs : string }.

Record Application : Type := mkApplication {
  application_ClientID : string;
  application_ClientSecret : string }.

End mastodon.

(** ** package model *)

Module model.

(** The session record. auth.go reads the instance field as
    [InstanceDomain], service.go writes and reads it as [InstanceURL]; it is
    one field. *)
Record Session : Type := mkSession {
  ID : string;
  InstanceDomain : string;
  AccessToken : string;
  CSRFToken : string }.

Record App : Type := mkApp {
  InstanceURL : string;
  ClientID : string;
  ClientSecret : string }.

(** model/settings.go *)
Record Settings : Type := mkSettings {
  DefaultVisibility : string;
  CopyScope : bool;
  ThreadInNewTab : bool;
  MaskNSFW : bool }.

Definition NewSettings : Settings :=
  {| DefaultVisibility := "public";
     CopyScope := true;
     ThreadInNewTab := false;
     MaskNSFW := true |}.

(** [model.Client{Client: mc, Session: session}] *)
Record Client : Type := mkClient {
  Client_Client : mastodon.Client;
  Client_Session : Session }.

(** [c.Session.AccessToken = token] *)
Definition set_AccessToken (c : Client) (token : string) : Client :=
  {| Client_Client := Client_Client c;
     Client_Session :=
       {| ID := ID (Client_Session c);
          InstanceDomain := InstanceDomain (Client_Session c);
          AccessToken := token;
          CSRFToken := CSRFToken (Client_Session c) |} |}.

End model.

(** ** net/url, at its interface *)

Module url.

Record URL : Type := mkURL {
  Scheme : string;
  Host : string;
  Path : string;
  RawQuery : string }.

Definition set_RawQuery (u : URL) (q : string) : URL :=
  {| Scheme := Scheme u; Host := Host u; Path := Path u; RawQuery := q |}.

(** [url.Values] restricted to [Set]: one value per key, later wins. *)
Definition Values : Type := gmap string string.

Definition Set_ (q : Values) (key val : string) : Values := <[key := val]> q.

End url.

(** ** The world *)

(** Every effect on a repository or across the network is recorded. *)
Inductive Event : Type :=
| EvNewSessionId
| EvSessionGet (id : string)
| EvSessionAdd (s : model.Session)
| EvAppGet (instance : string)
| EvAppAdd (a : model.App)
| EvRegisterApp (cfg : mastodon.AppConfig)
| EvHttpPost (target contentType : string) (payload : list (string * string)).

Record World : Type := mkWorld {
  sessions : gmap string model.Session;
  apps : gmap string model.App;
  trace : list Event }.

Definition record (ev : Event) (w : World) : World :=
  {| sessions := sessions w; apps := apps w; trace := trace w ++ [ev] |}.

(** The number of effects performed so far: the clock the environment's
    answers are indexed by. *)
Definition now (w : World) : nat := length (trace w).

(** What lies outside the repository: the random source of session ids, the
    faults of the storage medium, the remote instance and the pure
    standard-library functions on paths and URLs. Each answer may depend on
    the moment it is asked. *)
Record Env : Type := mkEnv {
  env_NewSessionId : nat -> string;
  env_storageFault : nat -> Event -> option string;
  env_RegisterApp : nat -> mastodon.AppConfig -> result mastodon.Application;
  env_http_Post : nat -> string -> string -> list (string * string) -> result string;
  env_json_Decode : string -> result string;
  env_path_Join : string -> string -> string;
  env_url_Parse : string -> result url.URL;
  env_Values_Encode : url.Values -> string;
  env_URL_String : url.URL -> string }.

(** [util.NewSessionId()] *)
Definition NewSessionId (env : Env) (w : World) : string * World :=
  (env_NewSessionId env (now w), record EvNewSessionId w).

(** ** The repositories *)

(** Modelled from the spec: [model.SessionRepository] (its implementation is
    not among the sources). [Get] fails with SessionNotFound on an unknown
    id; [Add] creates or overwrites the record under [Session.id]; either
    fails with a storage error when the medium does. *)
Module sessionRepo.

Definition Get (env : Env) (id : string) (w : World) : result model.Session * World :=
  let w' := record (EvSessionGet id) w in
  match env_storageFault env (now w) (EvSessionGet id) with
  | Some msg => (Err (ErrStorage msg), w')
  | None =>
      match sessions w !! id with
      | Some s => (Ok s, w')
      | None => (Err ErrSessionNotFound, w')
      end
  end.

Definition Add (env : Env) (s : model.Session) (w : World) : option error * World :=
  let w' := record (EvSessionAdd s) w in
  match env_storageFault env (now w) (EvSessionAdd s) with
  | Some msg => (Some (ErrStorage msg), w')
  | None =>
      (None, {| sessions := <[model.ID s := s]> (sessions w');
                apps := apps w';
                trace := trace w' |})
  end.

End sessionRepo.

(** Modelled from the spec: [model.AppRepository] (its implementation is not
    among the sources). [Get] fails with [model.ErrAppNotFound] on an unknown
    instance; [Add] stores the application under its instance URL,
    overwriting. *)
Module appRepo.

Definition Get (env : Env) (instance : string) (w : World) : result model.App * World :=
  let w' := record (EvAppGet instance) w in
  match env_storageFault env (now w) (EvAppGet instance) with
  | Some msg => (Err (ErrStorage msg), w')
  | None =>
      match apps w !! instance with
      | Some a => (Ok a, w')
      | None => (Err ErrAppNotFound, w')
      end
  end.

Definition Add (env : Env) (a : model.App) (w : World) : option error * World :=
  let w' := record (EvAppAdd a) w in
  match env_storageFault env (now w) (EvAppAdd a) with
  | Some msg => (Some (ErrStorage msg), w')
  | None =>
      (None, {| sessions := sessions w';
                apps := <[model.InstanceURL a := a]> (apps w');
                trace := trace w' |})
  end.

End appRepo.

(** ** The HTTP boundary: how a request becomes a context *)

Module http.

Record Request : Type := mkRequest {
  Cookies : gmap string string;
  Form : gmap string string }.

(** [req.Cookie(name)]: the cookie's value, or [http.ErrNoCookie]. *)
Definition Cookie (req : Request) (name : string) : option string :=
  Cookies req !! name.

(** [req.FormValue(key)]: the empty string when the key is absent. *)
Definition FormValue (req : Request) (key : string) : string :=
  default "" (Form req !! key).

End http.

(** [newCtxWithSesion] (the older handlers call it [getContextWithSession]) *)
Definition newCtxWithSesion (req : http.Request) : context.Context :=
  let ctx := context.Background in
  match http.Cookie req "session_id" with
  | None => ctx
  | Some sessionID => context.WithValue ctx "session_id" (context.VString sessionID)
  end.

Definition newCtxWithSesionCSRF (req : http.Request) (csrfToken : string) : context.Context :=
  let ctx := newCtxWithSesion req in
  context.WithValue ctx "csrf_token" (context.VString csrfToken).

(** ** The Service interface *)

(** [io.Writer]: the response the handler hands down. *)
Inductive Writer : Type := ResponseWriter (n : nat).

(** [multipart.FileHeader], by file name. *)
Definition FileHeader : Type := string.

(** The operations of the [Service] interface the gateway decorates with a
    CSRF check or implements itself (the page-serving operations only
    resolve the client and forward). A [*model.Client] argument may be nil.
    No implementation in this repository writes through the pointer it is
    handed, so it is passed by value. *)
Record Service : Type := mkService {
  iGetAuthUrl : context.Context -> string -> World ->
                (string * string * option error) * World;
  iGetUserToken : context.Context -> string -> option model.Client -> string -> World ->
                  (string * option error) * World;
  iSaveSettings : context.Context -> Writer -> option model.Client -> model.Settings -> World ->
                  option error * World;
  iLike : context.Context -> Writer -> option model.Client -> string -> World ->
          (Z * option error) * World;
  iUnLike : context.Context -> Writer -> option model.Client -> string -> World ->
            (Z * option error) * World;
  iRetweet : context.Context -> Writer -> option model.Client -> string -> World ->
             (Z * option error) * World;
  iUnRetweet : context.Context -> Writer -> option model.Client -> string -> World ->
               (Z * option error) * World;
  iPostTweet : context.Context -> Writer -> option model.Client ->
               string -> string -> string -> string -> bool -> list FileHeader -> World ->
               (string * option error) * World;
  iFollow : context.Context -> Writer -> option model.Client -> string -> World ->
            option error * World;
  iUnFollow : context.Context -> Writer -> option model.Client -> string -> World ->
              option error * World }.

(** ** service/service.go *)

Module service.

(** The [service] struct; its repositories live in the [World]. *)
Record service : Type := mkservice {
  clientName : string;
  clientScope : string;
  clientWebsite : string }.

(** Lines 109-123 of [GetAuthUrl]: the authorization URL of [instance]
    for the registered application [app]. [path.Join] cleans the path it
    returns (repeated slashes collapse, also those after the scheme), so the
    text of the URL is left to the environment's [path.Join], [url.Parse],
    [Values.Encode] and [URL.String]. *)
Definition authorizeUrl (env : Env) (svc : service) (instance : string)
    (app : model.App) : result string :=
  match env_url_Parse env (env_path_Join env instance "/oauth/authorize") with
  | Err err => Err err
  | Ok u =>
      let q : url.Values := ∅ in
      let q := url.Set_ q "scope" "read write follow" in
      let q := url.Set_ q "client_id" (model.ClientID app) in
      let q := url.Set_ q "response_type" "code" in
      let q := url.Set_ q "redirect_uri" (clientWebsite svc ++ "/oauth_callback") in
      let u := url.set_RawQuery u (env_Values_Encode env q) in
      Ok (env_URL_String env u)
  end.

Definition normalize (instance : string) : string :=
  if negb (HasPrefix instance "https://") then "https://" ++ instance else instance.

Definition appConfig (svc : service) (instance : string) : mastodon.AppConfig :=
  {| mastodon.app_Server := instance;
     mastodon.app_ClientName := clientName svc;
     mastodon.app_Scopes := clientScope svc;
     mastodon.app_Website := clientWebsite svc;
     mastodon.app_RedirectURIs := clientWebsite svc ++ "/oauth_callback" |}.

Definition GetAuthUrl (env : Env) (svc : service) (ctx : context.Context)
    (instance : string) (w : World) : (string * string * option error) * World :=
  let instance := normalize instance in
  let '(sessionID, w) := NewSessionId env w in
  match sessionRepo.Add env
          {| model.ID := sessionID;
             model.InstanceDomain := instance;
             model.AccessToken := "";
             model.CSRFToken := "" |} w with
  | (Some err, w) => (("", sessionID, Some err), w)
  | (None, w) =>
      let finish (app : model.App) (w : World) :=
        match authorizeUrl env svc instance app with
        | Err err => (("", sessionID, Some err), w)
        | Ok redirectUrl => ((redirectUrl, sessionID, None), w)
        end in
      match appRepo.Get env instance w with
      | (Ok app, w) => finish app w
      | (Err err, w) =>
          if decide (err ≠ ErrAppNotFound) then (("", sessionID, Some err), w)
          else
            let cfg := appConfig svc instance in
            match env_RegisterApp env (now w) cfg, record (EvRegisterApp cfg) w with
            | Err err, w => (("", sessionID, Some err), w)
            | Ok mastoApp, w =>
                let app :=
                  {| model.InstanceURL := instance;
                     model.ClientID := mastodon.application_ClientID mastoApp;
                     model.ClientSecret := mastodon.application_ClientSecret mastoApp |} in
                match appRepo.Add env app w with
                | (Some err, w) => (("", sessionID, Some err), w)
                | (None, w) => finish app w
                end
            end
      end
  end.

(** The JSON object posted to the token endpoint. *)
Definition tokenPayload (svc : service) (app : model.App) (code : string)
    : list (string * string) :=
  [ ("client_id", model.ClientID app);
    ("client_secret", model.ClientSecret app);
    ("grant_type", "authorization_code");
    ("code", code);
    ("redirect_uri", clientWebsite svc ++ "/oauth_callback") ].

(** Encoding a [map[string]string] as JSON does not fail; the response
    body is decoded whatever the status of the response. *)
Definition GetUserToken (env : Env) (svc : service) (ctx : context.Context)
    (sessionID : string) (c : option model.Client) (code : string) (w : World)
    : (string * option error) * World :=
  if (String.length code <? 1)%nat then (("", Some ErrInvalidArgument), w)
  else
    match sessionRepo.Get env sessionID w with
    | (Err err, w) => (("", Some err), w)
    | (Ok session, w) =>
        match appRepo.Get env (model.InstanceDomain session) w with
        | (Err err, w) => (("", Some err), w)
        | (Ok app, w) =>
            let data := tokenPayload svc app code in
            let target := model.InstanceURL app ++ "/oauth/token" in
            match env_http_Post env (now w) target "application/json" data,
                  record (EvHttpPost target "application/json" data) w with
            | Err err, w => (("", Some err), w)
            | Ok body, w =>
                match env_json_Decode env body with
                | Err err => (("", Some err), w)
                | Ok res_AccessToken => ((res_AccessToken, None), w)
                end
            end
        end
    end.

(** [service] as a [Service]. The sign-in operations are the ones above;
    the content operations [content] provides are those of the interface
    the gateway is written against. *)
Definition NewService (env : Env) (svc : service) (content : Service) : Service :=
  {| iGetAuthUrl := GetAuthUrl env svc;
     iGetUserToken := GetUserToken env svc;
     iSaveSettings := iSaveSettings content;
     iLike := iLike content;
     iUnLike := iUnLike content;
     iRetweet := iRetweet content;
     iUnRetweet := iUnRetweet content;
     iPostTweet := iPostTweet content;
     iFollow := iFollow content;
     iUnFollow := iUnFollow content |}.

End service.

(** ** service/auth.go *)

Module authService.

(** Every error return hands back a nil client (lines 31 and 35 say so,
    line 39 returns the named result before it is assigned): [Err]. *)
Definition getClient (env : Env) (ctx : context.Context) (w : World)
    : result model.Client * World :=
  let '(sessionID, ok) := context.as_string (context.Value_of ctx "session_id") in
  if negb ok || (String.length sessionID <? 1)%nat then (Err ErrInvalidSession, w)
  else
    match sessionRepo.Get env sessionID w with
    | (Err _, w) => (Err ErrInvalidSession, w)
    | (Ok session, w) =>
        match appRepo.Get env (model.InstanceDomain session) w with
        | (Err err, w) => (Err err, w)
        | (Ok client, w) =>
            let mc := mastodon.NewClient
                        {| mastodon.Server := model.InstanceURL client;
                           mastodon.ClientID := model.ClientID client;
                           mastodon.ClientSecret := model.ClientSecret client;
                           mastodon.AccessToken := model.AccessToken session |} in
            (Ok {| model.Client_Client := mc; model.Client_Session := session |}, w)
        end
    end.

Definition checkCSRF (ctx : context.Context) (c : model.Client) : option error :=
  let '(csrfToken, ok) := context.as_string (context.Value_of ctx "csrf_token") in
  if negb ok || negb (String.eqb csrfToken (model.CSRFToken (model.Client_Session c)))
  then Some ErrInvalidCSRFToken
  else None.

Definition GetAuthUrl (env : Env) (s : Service) (ctx : context.Context)
    (instance : string) (w : World) : (string * string * option error) * World :=
  iGetAuthUrl s ctx instance w.

Definition GetUserToken (env : Env) (s : Service) (ctx : context.Context)
    (sessionID : string) (c : option model.Client) (code : string) (w : World)
    : (string * option error) * World :=
  match getClient env ctx w with
  | (Err err, w) => (("", Some err), w)
  | (Ok c, w) =>
      match iGetUserToken s ctx (model.ID (model.Client_Session c)) (Some c) code w with
      | ((token, Some err), w) => ((token, Some err), w)
      | ((token, None), w) =>
          let c := model.set_AccessToken c token in
          match sessionRepo.Add env (model.Client_Session c) w with
          | (Some err, w) => ((token, Some err), w)
          | (None, w) => ((token, None), w)
          end
      end
  end.

Definition SaveSettings (env : Env) (s : Service) (ctx : context.Context)
    (client : Writer) (c : option model.Client) (settings : model.Settings)
    (w : World) : option error * World :=
  match getClient env ctx w with
  | (Err err, w) => (Some err, w)
  | (Ok c, w) =>
      match checkCSRF ctx c with
      | Some err => (Some err, w)
      | None => iSaveSettings s ctx client (Some c) settings w
      end
  end.

Definition Like (env : Env) (s : Service) (ctx : context.Context)
    (client : Writer) (c : option model.Client) (id : string) (w : World)
    : (Z * option error) * World :=
  match getClient env ctx w with
  | (Err err, w) => ((0%Z, Some err), w)
  | (Ok c, w) =>
      match checkCSRF ctx c with
      | Some err => ((0%Z, Some err), w)
      | None => iLike s ctx client (Some c) id w
      end
  end.

Definition UnLike (env : Env) (s : Service) (ctx : context.Context)
    (client : Writer) (c : option model.Client) (id : string) (w : World)
    : (Z * option error) * World :=
  match getClient env ctx w with
  | (Err err, w) => ((0%Z, Some err), w)
  | (Ok c, w) =>
      match checkCSRF ctx c with
      | Some err => ((0%Z, Some err), w)
      | None => iUnLike s ctx client (Some c) id w
      end
  end.

Definition Retweet (env : Env) (s : Service) (ctx : context.Context)
    (client : Writer) (c : option model.Client) (id : string) (w : World)
    : (Z * option error) * World :=
  match getClient env ctx w with
  | (Err err, w) => ((0%Z, Some err), w)
  | (Ok c, w) =>
      match checkCSRF ctx c with
      | Some err => ((0%Z, Some err), w)
      | None => iRetweet s ctx client (Some c) id w
      end
  end.

Definition UnRetweet (env : Env) (s : Service) (ctx : context.Context)
    (client : Writer) (c : option model.Client) (id : string) (w : World)
    : (Z * option error) * World :=
  match getClient env ctx w with
  | (Err err, w) => ((0%Z, Some err), w)
  | (Ok c, w) =>
      match checkCSRF ctx c with
      | Some err => ((0%Z, Some err), w)
      | None => iUnRetweet s ctx client (Some c) id w
      end
  end.

Definition PostTweet (env : Env) (s : Service) (ctx : context.Context)
    (client : Writer) (c : option model.Client)
    (content replyToID format visibility : string) (isNSFW : bool)
    (files : list FileHeader) (w : World) : (string * option error) * World :=
  match getClient env ctx w with
  | (Err err, w) => (("", Some err), w)
  | (Ok c, w) =>
      match checkCSRF ctx c with
      | Some err => (("", Some err), w)
      | None =>
          iPostTweet s ctx client (Some c) content replyToID format visibility isNSFW files w
      end
  end.

Definition Follow (env : Env) (s : Service) (ctx : context.Context)
    (client : Writer) (c : option model.Client) (id : string) (w : World)
    : option error * World :=
  match getClient env ctx w with
  | (Err err, w) => (Some err, w)
  | (Ok c, w) =>
      match checkCSRF ctx c with
      | Some err => (Some err, w)
      | None => iFollow s ctx client (Some c) id w
      end
  end.

Definition UnFollow (env : Env) (s : Service) (ctx : context.Context)
    (client : Writer) (c : option model.Client) (id : string) (w : World)
    : option error * World :=
  match getClient env ctx w with
  | (Err err, w) => (Some err, w)
  | (Ok c, w) =>
      match checkCSRF ctx c with
      | Some err => (Some err, w)
      | None => iUnFollow s ctx client (Some c) id w
      end
  end.

(** [NewAuthService]: the gateway is itself a [Service]. *)
Definition NewAuthService (env : Env) (s : Service) : Service :=
  {| iGetAuthUrl := GetAuthUrl env s;
     iGetUserToken := GetUserToken env s;
     iSaveSettings := SaveSettings env s;
     iLike := Like env s;
     iUnLike := UnLike env s;
     iRetweet := Retweet env s;
     iUnRetweet := UnRetweet env s;
     iPostTweet := PostTweet env s;
     iFollow := Follow env s;
     iUnFollow := UnFollow env s |}.

End authService.

(** ** The mutating operations, uniformly *)

(** A call to one of the eight operations the gateway guards with the CSRF
    check, with its arguments. *)
Inductive Mutation : Type :=
| MSaveSettings (settings : model.Settings)
| MLike (id : string)
| MUnLike (id : string)
| MRetweet (id : string)
| MUnRetweet (id : string)
| MPostTweet (content replyToID format visibility : string) (isNSFW : bool)
             (files : list FileHeader)
| MFollow (id : string)
| MUnFollow (id : string).

(** What such a call returns: [err], [(count, err)] or [(id, err)]. *)
Inductive Reply : Type :=
| RErr (err : option error)
| RCount (count : Z) (err : option error)
| RID (id : string) (err : option error).

(** Dispatch of a call on a [Service]. *)
Definition call (s : Service) (ctx : context.Context) (client : Writer)
    (c : option model.Client) (m : Mutation) (w : World) : Reply * World :=
  match m with
  | MSaveSettings settings =>
      let '(err, w) := iSaveSettings s ctx client c settings w in (RErr err, w)
  | MLike id =>
      let '((count, err), w) := iLike s ctx client c id w in (RCount count err, w)
  | MUnLike id =>
      let '((count, err), w) := iUnLike s ctx client c id w in (RCount count err, w)
  | MRetweet id =>
      let '((count, err), w) := iRetweet s ctx client c id w in (RCount count err, w)
  | MUnRetweet id =>
      let '((count, err), w) := iUnRetweet s ctx client c id w in (RCount count err, w)
  | MPostTweet content replyToID format visibility isNSFW files =>
      let '((id, err), w) :=
        iPostTweet s ctx client c content replyToID format visibility isNSFW files w in
      (RID id err, w)
  | MFollow id =>
      let '(err, w) := iFollow s ctx client c id w in (RErr err, w)
  | MUnFollow id =>
      let '(err, w) := iUnFollow s ctx client c id w in (RErr err, w)
  end.

(** The reply of a call that returned [err] before producing a value. *)
Definition refused (m : Mutation) (err : error) : Reply :=
  match m with
  | MSaveSettings _ | MFollow _ | MUnFollow _ => RErr (Some err)
  | MLike _ | MUnLike _ | MRetweet _ | MUnRetweet _ => RCount 0 (Some err)
  | MPostTweet _ _ _ _ _ _ => RID "" (Some err)
  end.

(** ** Vocabulary of the statements *)

(** The session identifier a context carries: a string, and not empty. *)
Definition ctx_session (ctx : context.Context) : option string :=
  match context.Value_of ctx "session_id" with
  | Some (context.VString sessionID) =>
      if decide (sessionID = "") then None else Some sessionID
  | _ => None
  end.

(** The CSRF token a context carries, when it carries one. *)
Definition ctx_csrf (ctx : context.Context) : option string :=
  match context.Value_of ctx "csrf_token" with
  | Some (context.VString csrfToken) => Some csrfToken
  | _ => None
  end.

(** A repository lookup, as opposed to a write or a network call. *)
Definition is_lookup (ev : Event) : Prop :=
  match ev with
  | EvSessionGet _ | EvAppGet _ => True
  | _ => False
  end.

(** A call to the remote instance. *)
Definition is_network (ev : Event) : Prop :=
  match ev with
  | EvRegisterApp _ | EvHttpPost _ _ _ => True
  | _ => False
  end.

(** An effect that creates an application: a remote registration or a write
    to the Instance Registry. *)
Definition is_registration (ev : Event) : Prop :=
  match ev with
  | EvRegisterApp _ | EvAppAdd _ => True
  | _ => False
  end.

(** The instance an effect of sign-in is performed for is [instance]. *)
Definition concerns (instance : string) (ev : Event) : Prop :=
  match ev with
  | EvNewSessionId => True
  | EvSessionAdd s => model.InstanceDomain s = instance
  | EvAppGet key => key = instance
  | EvAppAdd a => model.InstanceURL a = instance
  | EvRegisterApp cfg => mastodon.app_Server cfg = instance
  | EvSessionGet _ | EvHttpPost _ _ _ => False
  end.

(** Every session is stored under its own id, as [sessionRepo.Add] files it. *)
Definition keyed (m : gmap string model.Session) : Prop :=
  forall key s, m !! key = Some s -> model.ID s = key.

(** A remote instance and a storage medium that cooperate: the medium does
    not fail, session ids are not empty, the instance registers the
    application, its authorization URL parses, and it answers a token
    request carrying [code] with a body that decodes to [token]. *)
Record stub_accepts (env : Env) (svc : service.service) (instance code token : string)
    : Prop := mk_stub_accepts {
  stub_storage : forall t ev, env_storageFault env t ev = None;
  stub_ids : forall t, env_NewSessionId env t <> "";
  stub_registers : forall t, exists a,
      env_RegisterApp env t (service.appConfig svc (service.normalize instance)) = Ok a;
  stub_parses : exists u,
      env_url_Parse env
        (env_path_Join env (service.normalize instance) "/oauth/authorize") = Ok u;
  stub_exchanges : forall t target payload,
      ("code", code) ∈ payload ->
      exists body,
        env_http_Post env t target "application/json" payload = Ok body /\
        env_json_Decode env body = Ok token }.

(** ** A stub environment and concrete requests *)

Module stub.

(** A remote instance that registers every application, answers every
    token request with one token, and a medium that never fails. *)
Definition env : Env :=
  {| env_NewSessionId := fun _ => "session-1";
     env_storageFault := fun _ _ => None;
     env_RegisterApp := fun _ _ =>
       Ok {| mastodon.application_ClientID := "client-id";
             mastodon.application_ClientSecret := "client-secret" |};
     env_http_Post := fun _ _ _ _ => Ok "stub-token";
     env_json_Decode := fun body => Ok body;
     env_path_Join := fun a b => a ++ b;
     env_url_Parse := fun s =>
       Ok {| url.Scheme := ""; url.Host := ""; url.Path := s; url.RawQuery := "" |};
     env_Values_Encode := fun q => "client_id=" ++ default "" (q !! "client_id");
     env_URL_String := fun u => url.Path u ++ "?" ++ url.RawQuery u |}.

(** The same, with a remote instance that refuses to register. *)
Definition env_refusing : Env :=
  {| env_NewSessionId := env_NewSessionId env;
     env_storageFault := env_storageFault env;
     env_RegisterApp := fun _ _ => Err (ErrRemote "registration refused");
     env_http_Post := env_http_Post env;
     env_json_Decode := env_json_Decode env;
     env_path_Join := env_path_Join env;
     env_url_Parse := env_url_Parse env;
     env_Values_Encode := env_Values_Encode env;
     env_URL_String := env_URL_String env |}.

Definition svc : service.service :=
  {| service.clientName := "bloat";
     service.clientScope := "read write follow";
     service.clientWebsite := "https://bloat.example" |}.

(** Content operations that do nothing. *)
Definition content : Service :=
  {| iGetAuthUrl := fun _ _ w => (("", "", None), w);
     iGetUserToken := fun _ _ _ _ w => (("", None), w);
     iSaveSettings := fun _ _ _ _ w => (None, w);
     iLike := fun _ _ _ _ w => ((1%Z, None), w);
     iUnLike := fun _ _ _ _ w => ((0%Z, None), w);
     iRetweet := fun _ _ _ _ w => ((1%Z, None), w);
     iUnRetweet := fun _ _ _ _ w => ((0%Z, None), w);
     iPostTweet := fun _ _ _ _ _ _ _ _ _ w => (("status-1", None), w);
     iFollow := fun _ _ _ _ w => (None, w);
     iUnFollow := fun _ _ _ _ w => (None, w) |}.

Definition empty : World := {| sessions := ∅; apps := ∅; trace := [] |}.

(** A session as [GetAuthUrl] creates it, and the application of its
    instance. *)
Definition session : model.Session :=
  {| model.ID := "session-1";
     model.InstanceDomain := "https://example.com";
     model.AccessToken := "";
     model.CSRFToken := "" |}.

Definition app : model.App :=
  {| model.InstanceURL := "https://example.com";
     model.ClientID := "client-id";
     model.ClientSecret := "client-secret" |}.

(** The session is stored, its instance has no registered application. *)
Definition orphan : World :=
  {| sessions := {[ "session-1" := session ]}; apps := ∅; trace := [] |}.

(** The session is stored and its instance is registered. *)
Definition signed_in : World :=
  {| sessions := {[ "session-1" := session ]};
     apps := {[ "https://example.com" := app ]};
     trace := [] |}.

(** A request with the session cookie and no form values. *)
Definition request : http.Request :=
  {| http.Cookies := {[ "session_id" := "session-1" ]}; http.Form := ∅ |}.

(** A request with neither cookie nor form values. *)
Definition anonymous : http.Request :=
  {| http.Cookies := ∅; http.Form := ∅ |}.

Definition client : model.Client :=
  {| model.Client_Client :=
       mastodon.NewClient
         {| mastodon.Server := "https://example.com";
            mastodon.ClientID := "client-id";
            mastodon.ClientSecret := "client-secret";
            mastodon.AccessToken := "" |};
     model.Client_Session := session |}.

End stub.

(** ** The page-serving operations of the interface *)

(** The remaining operations of the [Service] interface, as auth.go
    declares them: the pages. [ServeErrorPage] returns nothing. *)
Record PageService : Type := mkPageService {
  pServeErrorPage : context.Context -> Writer -> option model.Client -> error -> World ->
                    World;
  pServeSigninPage : context.Context -> Writer -> World -> option error * World;
  pServeTimelinePage : context.Context -> Writer -> option model.Client ->
                       string -> string -> string -> string -> World ->
                       option error * World;
  pServeThreadPage : context.Context -> Writer -> option model.Client ->
                     string -> bool -> World -> option error * World;
  pServeNotificationPage : context.Context -> Writer -> option model.Client ->
                           string -> string -> World -> option error * World;
  pServeUserPage : context.Context -> Writer -> option model.Client ->
                   string -> string -> string -> World -> option error * World;
  pServeAboutPage : context.Context -> Writer -> option model.Client -> World ->
                    option error * World;
  pServeEmojiPage : context.Context -> Writer -> option model.Client -> World ->
                    option error * World;
  pServeLikedByPage : context.Context -> Writer -> option model.Client -> string ->
                      World -> option error * World;
  pServeRetweetedByPage : context.Context -> Writer -> option model.Client -> string ->
                          World -> option error * World;
  pServeFollowingPage : context.Context -> Writer -> option model.Client ->
                        string -> string -> string -> World -> option error * World;
  pServeFollowersPage : context.Context -> Writer -> option model.Client ->
                        string -> string -> string -> World -> option error * World;
  pServeSearchPage : context.Context -> Writer -> option model.Client ->
                     string -> string -> Z -> World -> option error * World;
  pServeSettingsPage : context.Context -> Writer -> option model.Client -> World ->
                       option error * World }.

(** service/auth.go, lines 85-189: the pages of the gateway over the pages
    [s] of the inner service. *)
Module authPages.

(** [c, _ = s.getClient(ctx)]: the error is dropped, the client is nil when
    there is one. *)
Definition ServeErrorPage (env : Env) (s : PageService) (ctx : context.Context)
    (client : Writer) (c : option model.Client) (err : error) (w : World) : World :=
  let '(r, w) := authService.getClient env ctx w in
  let c := match r with Ok c => Some c | Err _ => None end in
  pServeErrorPage s ctx client c err w.

Definition ServeSigninPage (env : Env) (s : PageService) (ctx : context.Context)
    (client : Writer) (w : World) : option error * World :=
  pServeSigninPage s ctx client w.

Definition ServeTimelinePage (env : Env) (s : PageService) (ctx : context.Context)
    (client : Writer) (c : option model.Client)
    (timelineType maxID sinceID minID : string) (w : World) : option error * World :=
  match authService.getClient env ctx w with
  | (Err err, w) => (Some err, w)
  | (Ok c, w) => pServeTimelinePage s ctx client (Some c) timelineType maxID sinceID minID w
  end.

Definition ServeThreadPage (env : Env) (s : PageService) (ctx : context.Context)
    (client : Writer) (c : option model.Client) (id : string) (reply : bool)
    (w : World) : option error * World :=
  match authService.getClient env ctx w with
  | (Err err, w) => (Some err, w)
  | (Ok c, w) => pServeThreadPage s ctx client (Some c) id reply w
  end.

Definition ServeNotificationPage (env : Env) (s : PageService) (ctx : context.Context)
    (client : Writer) (c : option model.Client) (maxID minID : string)
    (w : World) : option error * World :=
  match authService.getClient env ctx w with
  | (Err err, w) => (Some err, w)
  | (Ok c, w) => pServeNotificationPage s ctx client (Some c) maxID minID w
  end.

Definition ServeUserPage (env : Env) (s : PageService) (ctx : context.Context)
    (client : Writer) (c : option model.Client) (id maxID minID : string)
    (w : World) : option error * World :=
  match authService.getClient env ctx w with
  | (Err err, w) => (Some err, w)
  | (Ok c, w) => pServeUserPage s ctx client (Some c) id maxID minID w
  end.

Definition ServeAboutPage (env : Env) (s : PageService) (ctx : context.Context)
    (client : Writer) (c : option model.Client) (w : World) : option error * World :=
  match authService.getClient env ctx w with
  | (Err err, w) => (Some err, w)
  | (Ok c, w) => pServeAboutPage s ctx client (Some c) w
  end.

Definition ServeEmojiPage (env : Env) (s : PageService) (ctx : context.Context)
    (client : Writer) (c : option model.Client) (w : World) : option error * World :=
  match authService.getClient env ctx w with
  | (Err err, w) => (Some err, w)
  | (Ok c, w) => pServeEmojiPage s ctx client (Some c) w
  end.

Definition ServeLikedByPage (env : Env) (s : PageService) (ctx : context.Context)
    (client : Writer) (c : option model.Client) (id : string) (w : World)
    : option error * World :=
  match authService.getClient env ctx w with
  | (Err err, w) => (Some err, w)
  | (Ok c, w) => pServeLikedByPage s ctx client (Some c) id w
  end.

Definition ServeRetweetedByPage (env : Env) (s : PageService) (ctx : context.Context)
    (client : Writer) (c : option model.Client) (id : string) (w : World)
    : option error * World :=
  match authService.getClient env ctx w with
  | (Err err, w) => (Some err, w)
  | (Ok c, w) => pServeRetweetedByPage s ctx client (Some c) id w
  end.

Definition ServeFollowingPage (env : Env) (s : PageService) (ctx : context.Context)
    (client : Writer) (c : option model.Client) (id maxID minID : string)
    (w : World) : option error * World :=
  match authService.getClient env ctx w with
  | (Err err, w) => (Some err, w)
  | (Ok c, w) => pServeFollowingPage s ctx client (Some c) id maxID minID w
  end.

Definition ServeFollowersPage (env : Env) (s : PageService) (ctx : context.Context)
    (client : Writer) (c : option model.Client) (id maxID minID : string)
    (w : World) : option error * World :=
  match authService.getClient env ctx w with
  | (Err err, w) => (Some err, w)
  | (Ok c, w) => pServeFollowersPage s ctx client (Some c) id maxID minID w
  end.

Definition ServeSearchPage (env : Env) (s : PageService) (ctx : context.Context)
    (client : Writer) (c : option model.Client) (q qType : string) (offset : Z)
    (w : World) : option error * World :=
  match authService.getClient env ctx w with
  | (Err err, w) => (Some err, w)
  | (Ok c, w) => pServeSearchPage s ctx client (Some c) q qType offset w
  end.

Definition ServeSettingsPage (env : Env) (s : PageService) (ctx : context.Context)
    (client : Writer) (c : option model.Client) (w : World) : option error * World :=
  match authService.getClient env ctx w with
  | (Err err, w) => (Some err, w)
  | (Ok c, w) => pServeSettingsPage s ctx client (Some c) w
  end.

(** The pages of [NewAuthService]. *)
Definition NewAuthPages (env : Env) (s : PageService) : PageService :=
  {| pServeErrorPage := ServeErrorPage env s;
     pServeSigninPage := ServeSigninPage env s;
     pServeTimelinePage := ServeTimelinePage env s;
     pServeThreadPage := ServeThreadPage env s;
     pServeNotificationPage := ServeNotificationPage env s;
     pServeUserPage := ServeUserPage env s;
     pServeAboutPage := ServeAboutPage env s;
     pServeEmojiPage := ServeEmojiPage env s;
     pServeLikedByPage := ServeLikedByPage env s;
     pServeRetweetedByPage := ServeRetweetedByPage env s;
     pServeFollowingPage := ServeFollowingPage env s;
     pServeFollowersPage := ServeFollowersPage env s;
     pServeSearchPage := ServeSearchPage env s;
     pServeSettingsPage := ServeSettingsPage env s |}.

End authPages.

(** A request for one of the twelve pages that need a client, with its
    arguments. *)
Inductive Page : Type :=
| PTimeline (timelineType maxID sinceID minID : string)
| PThread (id : string) (reply : bool)
| PNotification (maxID minID : string)
| PUser (id maxID minID : string)
| PAbout
| PEmoji
| PLikedBy (id : string)
| PRetweetedBy (id : string)
| PFollowing (id maxID minID : string)
| PFollowers (id maxID minID : string)
| PSearch (q qType : string) (offset : Z)
| PSettings.

(** Dispatch of a page request on a [PageService]. *)
Definition serve (s : PageService) (ctx : context.Context) (client : Writer)
    (c : option model.Client) (p : Page) (w : World) : option error * World :=
  match p with
  | PTimeline timelineType maxID sinceID minID =>
      pServeTimelinePage s ctx client c timelineType maxID sinceID minID w
  | PThread id reply => pServeThreadPage s ctx client c id reply w
  | PNotification maxID minID => pServeNotificationPage s ctx client c maxID minID w
  | PUser id maxID minID => pServeUserPage s ctx client c id maxID minID w
  | PAbout => pServeAboutPage s ctx client c w
  | PEmoji => pServeEmojiPage s ctx client c w
  | PLikedBy id => pServeLikedByPage s ctx client c id w
  | PRetweetedBy id => pServeRetweetedByPage s ctx client c id w
  | PFollowing id maxID minID => pServeFollowingPage s ctx client c id maxID minID w
  | PFollowers id maxID minID => pServeFollowersPage s ctx client c id maxID minID w
  | PSearch q qType offset => pServeSearchPage s ctx client c q qType offset w
  | PSettings => pServeSettingsPage s ctx client c w
  end.

(** ** The handlers *)

(** [getMultipartFormValue]: the first value of [key] in the form, the empty
    string when the key is missing or has no value. *)
Definition getMultipartFormValue (mf : gmap string (list string)) (key : string) : string :=
  match mf !! key with
  | None => ""
  | Some vals =>
      if (length vals <? 1)%nat then ""
      else match vals with
           | val :: _ => val
           | [] => ""
           end
  end.

Module handler.

(** What a handler leaves in the [http.ResponseWriter]: the headers, in the
    order they were added, and the status written. *)
Record Response : Type := mkResponse {
  Header : list (string * string);
  Status : option nat }.

Definition fresh : Response := {| Header := []; Status := None |}.

(** [w.Header().Add(key, value)] *)
Definition Add (key value : string) (r : Response) : Response :=
  {| Header := (Header r ++ [(key, value)])%list; Status := Status r |}.

(** [w.WriteHeader(status)] *)
Definition WriteHeader (status : nat) (r : Response) : Response :=
  {| Header := Header r; Status := Some status |}.

(** [w.Header().Get(key)]: the first value added under [key]. *)
Fixpoint Get (h : list (string * string)) (key : string) : option string :=
  match h with
  | [] => None
  | (k, v) :: rest => if String.eqb k key then Some v else Get rest key
  end.

Definition StatusFound : nat := 302.

Definition cookieAge : string := "31536000".

(** The handler of [GET /]. *)
Definition rootPage (req : http.Request) : Response :=
  let location := "/signin" in
  let location :=
    match http.Cookie req "session_id" with
    | Some value => if (0 <? String.length value)%nat then "/timeline/home" else location
    | None => location
    end in
  WriteHeader StatusFound (Add "Location" location fresh).

(** The handler of [POST /signin], over the sign-in operations [s] and the
    pages [p] of one service; the handlers hand a nil client down. The
    context is the package-level background context. *)
Definition signin (s : Service) (p : PageService) (client : Writer)
    (req : http.Request) (w : World) : Response * World :=
  let ctx := context.Background in
  let instance := http.FormValue req "instance" in
  match iGetAuthUrl s ctx instance w with
  | ((url, sessionId, Some err), w) =>
      (fresh, pServeErrorPage p ctx client None err w)
  | ((url, sessionId, None), w) =>
      let r := Add "Set-Cookie"
                 ("session_id=" ++ sessionId ++ ";max-age=" ++ cookieAge) fresh in
      let r := Add "Location" url r in
      (WriteHeader StatusFound r, w)
  end.

(** The handler of [GET /oauth_callback]; [query] is the parsed query of the
    request's URL, whose [Get] gives the empty string for a missing key. *)
Definition oauthCallback (s : Service) (p : PageService) (client : Writer)
    (req : http.Request) (query : gmap string string) (w : World) : Response * World :=
  let ctx := newCtxWithSesion req in
  let token := default "" (query !! "code") in
  match iGetUserToken s ctx "" None token w with
  | ((_, Some err), w) => (fresh, pServeErrorPage p ctx client None err w)
  | ((_, None), w) =>
      (WriteHeader StatusFound (Add "Location" "/timeline/home" fresh), w)
  end.

(** The handler of [GET /signout]: the session is not removed. *)
Definition signout (req : http.Request) (w : World) : Response * World :=
  let r := Add "Set-Cookie" "session_id=;max-age=0" fresh in
  let r := Add "Location" "/" r in
  (WriteHeader StatusFound r, w).

End handler.

(** ** service.go: what the thread page offers as a reply *)

(** Lines 249-255 of [ServeThreadPage]: the text the reply form starts with,
    from the account of the status and the accounts it mentions. *)
Definition replyContent (reply : bool) (acct : string) (mentions : list string) : string :=
  let content := "" in
  if reply then
    let content := content ++ acct ++ " " in
    fold_left (fun content m => content ++ m ++ " ") mentions content
  else content.

(** ** The offset of a search (the handlers of search and user search) *)

(** Lines 215-224 and 265-274 of the handlers: the offset handed to the
    service, or the error of [strconv.Atoi], here [parse], for which the
    error page is served with status 500. *)
Definition searchOffset (parse : string -> result Z) (offsetStr : string) : result Z :=
  let offset := 0%Z in
  if (1 <? String.length offsetStr)%nat then
    match parse offsetStr with
    | Err err => Err err
    | Ok offset => Ok offset
    end
  else Ok offset.

(** The decimal numeral of a number. *)
Definition decimal (n : N) : string := NilEmpty.string_of_uint (N.to_uint n).

(** [strconv.Atoi] where [int] has 64 bits: an optional sign, then decimal
    digits, at least one; a syntax error otherwise, a range error outside
    [int]. *)
Definition Atoi (s : string) : result Z :=
  let '(neg, digits) :=
    match s with
    | String c rest =>
        if Ascii.eqb c "+" then (false, rest)
        else if Ascii.eqb c "-" then (true, rest)
        else (false, s)
    | EmptyString => (false, s)
    end in
  match digits with
  | EmptyString => Err (ErrRemote "invalid syntax")
  | _ =>
      match NilEmpty.uint_of_string digits with
      | None => Err (ErrRemote "invalid syntax")
      | Some d =>
          let n := Z.of_N (N.of_uint d) in
          let v := if neg : bool then (- n)%Z else n in
          if ((v <? - 2 ^ 63) || (2 ^ 63 - 1 <? v))%Z
          then Err (ErrRemote "value out of range")
          else Ok v
      end
  end.

(** Every application is stored under its own instance URL, as
    [appRepo.Add] files it. *)
Definition registry_keyed (m : gmap string model.App) : Prop :=
  forall key a, m !! key = Some a -> model.InstanceURL a = key.

(** ** More fixtures *)

Module fixture.

(** A remote instance whose answer to the token request holds no access
    token. *)
Definition env_tokenless : Env :=
  {| env_NewSessionId := env_NewSessionId stub.env;
     env_storageFault := env_storageFault stub.env;
     env_RegisterApp := env_RegisterApp stub.env;
     env_http_Post := fun _ _ _ _ => Ok "{}";
     env_json_Decode := fun _ => Ok "";
     env_path_Join := env_path_Join stub.env;
     env_url_Parse := env_url_Parse stub.env;
     env_Values_Encode := env_Values_Encode stub.env;
     env_URL_String := env_URL_String stub.env |}.

(** A session that carries a CSRF token, and its client. *)
Definition session : model.Session :=
  {| model.ID := "session-2";
     model.InstanceDomain := "https://example.com";
     model.AccessToken := "access-token";
     model.CSRFToken := "csrf-secret" |}.

Definition world : World :=
  {| sessions := {[ "session-2" := session ]};
     apps := {[ "https://example.com" := stub.app ]};
     trace := [] |}.

Definition request : http.Request :=
  {| http.Cookies := {[ "session_id" := "session-2" ]}; http.Form := ∅ |}.

(** Pages that render nothing and report no error. *)
Definition pages : PageService :=
  {| pServeErrorPage := fun _ _ _ _ w => w;
     pServeSigninPage := fun _ _ w => (None, w);
     pServeTimelinePage := fun _ _ _ _ _ _ _ w => (None, w);
     pServeThreadPage := fun _ _ _ _ _ w => (None, w);
     pServeNotificationPage := fun _ _ _ _ _ w => (None, w);
     pServeUserPage := fun _ _ _ _ _ _ w => (None, w);
     pServeAboutPage := fun _ _ _ w => (None, w);
     pServeEmojiPage := fun _ _ _ w => (None, w);
     pServeLikedByPage := fun _ _ _ _ w => (None, w);
     pServeRetweetedByPage := fun _ _ _ _ w => (None, w);
     pServeFollowingPage := fun _ _ _ _ _ _ w => (None, w);
     pServeFollowersPage := fun _ _ _ _ _ _ w => (None, w);
     pServeSearchPage := fun _ _ _ _ _ _ w => (None, w);
     pServeSettingsPage := fun _ _ _ w => (None, w) |}.

End fixture.

(** ** package path of Go's standard library *)

(** [path.Join] and [path.Clean] as the package documents them, on the
    elements of a path (the pieces between its slashes): [Clean] drops empty
    elements and ".", lets ".." remove the element before it (or keeps it at
    the front of a path that is not rooted), joins what is left with single
    slashes and gives "." for an empty result. *)
Module path.

Definition slash : ascii := "/"%char.

(** The elements of a path. *)
Fixpoint elements (p : string) : list string :=
  match p with
  | EmptyString => [EmptyString]
  | String c rest =>
      if Ascii.eqb c slash then EmptyString :: elements rest
      else match elements rest with
           | e :: es => String c e :: es
           | [] => [String c EmptyString]
           end
  end.

(** One turn of [Clean]'s loop, on the element [e]; [out] holds the elements
    written so far, the last one first. *)
Definition step (rooted : bool) (out : list string) (e : string) : list string :=
  if String.eqb e "" then out
  else if String.eqb e "." then out
  else if String.eqb e ".." then
    match out with
    | top :: below =>
        if negb rooted && String.eqb top ".." then ".." :: out else below
    | [] => if rooted then out else [".."]
    end
  else e :: out.

(** The elements written, with one slash between two of them. *)
Fixpoint join (es : list string) : string :=
  match es with
  | [] => ""
  | [e] => e
  | e :: rest => e ++ "/" ++ join rest
  end.

(** [path.Clean(p)] *)
Definition Clean (p : string) : string :=
  if String.eqb p "" then "."
  else
    let rooted := match p with String c _ => Ascii.eqb c slash | EmptyString => false end in
    let out := rev (fold_left (step rooted) (elements p) []) in
    let s := (if rooted then "/" else "") ++ join out in
    if String.eqb s "" then "." else s.

(** [path.Join(a, b)] *)
Definition Join (a b : string) : string :=
  if String.eqb a "" then (if String.eqb b "" then "" else Clean b)
  else Clean (a ++ "/" ++ b).

End path.

(** No slash occurs in the string. *)
Fixpoint no_slash (s : string) : bool :=
  match s with
  | EmptyString => true
  | String c rest => negb (Ascii.eqb c path.slash) && no_slash rest
  end.

(** Two slashes in a row occur in the string. *)
Fixpoint double_slash (s : string) : bool :=
  match s with
  | EmptyString => false
  | String c rest =>
      match rest with
      | String d _ => (Ascii.eqb c path.slash && Ascii.eqb d path.slash) || double_slash rest
      | EmptyString => false
      end
  end.

(** The string begins with a slash. *)
Definition starts_slash (s : string) : bool :=
  match s with
  | String c _ => Ascii.eqb c path.slash
  | EmptyString => false
  end.

(** A path element as [Clean] writes one: not empty, without slash. *)
Definition element (e : string) : Prop := e <> "" /\ no_slash e = true.

(** Lines 114-118 of [GetAuthUrl]: the query of the authorization URL. *)
Definition authorizeQuery (svc : service.service) (app : model.App) : url.Values :=
  let q : url.Values := ∅ in
  let q := url.Set_ q "scope" "read write follow" in
  let q := url.Set_ q "client_id" (model.ClientID app) in
  let q := url.Set_ q "response_type" "code" in
  let q := url.Set_ q "redirect_uri" (service.clientWebsite svc ++ "/oauth_callback") in
  q.

(** The stub environment with Go's [path.Join]. *)
Module gopath.

Definition env : Env :=
  {| env_NewSessionId := env_NewSessionId stub.env;
     env_storageFault := env_storageFault stub.env;
     env_RegisterApp := env_RegisterApp stub.env;
     env_http_Post := env_http_Post stub.env;
     env_json_Decode := env_json_Decode stub.env;
     env_path_Join := path.Join;
     env_url_Parse := env_url_Parse stub.env;
     env_Values_Encode := env_Values_Encode stub.env;
     env_URL_String := env_URL_String stub.env |}.

End gopath.

(** ** Proof steps *)

(** Unfold sign-in, respectively the token exchange, down to the oracles of
    the environment. *)
Ltac unfold_signin :=
  unfold service.GetAuthUrl, NewSessionId, sessionRepo.Add, appRepo.Get, appRepo.Add,
    record, now in *.

Ltac unfold_token :=
  unfold authService.GetUserToken, service.GetUserToken, sessionRepo.Get,
    sessionRepo.Add, appRepo.Get, record, now in *.

(** * Properties *)

(** ** Strings and contexts *)

Lemma length_lt_1 (s : string) : (String.length s <? 1)%nat = true <-> s = "".
Proof.
  destruct s as [|a s]; simpl; split; intros H; try done.
Qed.

Lemma ctx_session_None ctx :
  ctx_session ctx = None <->
  (let '(sessionID, ok) := context.as_string (context.Value_of ctx "session_id") in
   negb ok || (String.length sessionID <? 1)%nat) = true.
Proof.
  unfold ctx_session.
  destruct (context.Value_of ctx "session_id") as [[s|n|b]|]; simpl; try done.
  destruct (decide (s = "")) as [->|Hne]; simpl; [done|].
  split; [done|]. intros H. by apply length_lt_1 in H.
Qed.

Lemma ctx_session_Some ctx sid :
  ctx_session ctx = Some sid ->
  context.as_string (context.Value_of ctx "session_id") = (sid, true) /\
  (String.length sid <? 1)%nat = false.
Proof.
  unfold ctx_session.
  destruct (context.Value_of ctx "session_id") as [[s|n|b]|]; simpl; try done.
  destruct (decide (s = "")) as [->|Hne]; [done|].
  intros [= ->]. split; [done|].
  destruct (String.length sid <? 1)%nat eqn:E; [|done].
  by apply length_lt_1 in E.
Qed.

(** ** The repositories *)

Lemma sessionRepo_Get_world env id w :
  snd (sessionRepo.Get env id w) = record (EvSessionGet id) w.
Proof.
  unfold sessionRepo.Get.
  destruct (env_storageFault _ _ _); [done|]. by destruct (sessions w !! id).
Qed.

Lemma appRepo_Get_world env instance w :
  snd (appRepo.Get env instance w) = record (EvAppGet instance) w.
Proof.
  unfold appRepo.Get.
  destruct (env_storageFault _ _ _); [done|]. by destruct (apps w !! instance).
Qed.

Lemma sessionRepo_Get_Ok env id w s w1 :
  sessionRepo.Get env id w = (Ok s, w1) ->
  sessions w !! id = Some s /\ w1 = record (EvSessionGet id) w.
Proof.
  unfold sessionRepo.Get.
  destruct (env_storageFault _ _ _); [done|].
  destruct (sessions w !! id); [|done]. by intros [= -> <-].
Qed.

Lemma appRepo_Get_Ok env instance w a w1 :
  appRepo.Get env instance w = (Ok a, w1) ->
  apps w !! instance = Some a /\ w1 = record (EvAppGet instance) w.
Proof.
  unfold appRepo.Get.
  destruct (env_storageFault _ _ _); [done|].
  destruct (apps w !! instance); [|done]. by intros [= -> <-].
Qed.

Lemma appRepo_Get_Err env instance w e w1 :
  appRepo.Get env instance w = (Err e, w1) ->
  w1 = record (EvAppGet instance) w /\
  ((apps w !! instance = None /\ e = ErrAppNotFound) \/ exists msg, e = ErrStorage msg).
Proof.
  unfold appRepo.Get.
  destruct (env_storageFault _ _ _) as [msg|].
  - intros [= <- <-]. split; [done|]. right. by exists msg.
  - destruct (apps w !! instance); [done|]. intros [= <- <-]. split; [done|]. by left.
Qed.

(** [getClient], case by case. *)
Lemma getClient_no_session env ctx w :
  ctx_session ctx = None ->
  authService.getClient env ctx w = (Err ErrInvalidSession, w).
Proof.
  intros H%ctx_session_None. unfold authService.getClient.
  destruct (context.as_string _) as [sid ok]. by rewrite H.
Qed.

Lemma getClient_session env ctx w sid :
  ctx_session ctx = Some sid ->
  authService.getClient env ctx w =
  match sessionRepo.Get env sid w with
  | (Err _, w) => (Err ErrInvalidSession, w)
  | (Ok session, w) =>
      match appRepo.Get env (model.InstanceDomain session) w with
      | (Err err, w) => (Err err, w)
      | (Ok client, w) =>
          (Ok {| model.Client_Client :=
                   mastodon.NewClient
                     {| mastodon.Server := model.InstanceURL client;
                        mastodon.ClientID := model.ClientID client;
                        mastodon.ClientSecret := model.ClientSecret client;
                        mastodon.AccessToken := model.AccessToken session |};
                 model.Client_Session := session |}, w)
      end
  end.
Proof.
  intros [Hs Hl]%ctx_session_Some. unfold authService.getClient.
  rewrite Hs. simpl. by rewrite Hl.
Qed.

(** C1 (as amended). [getClient] fails with [ErrInvalidSession] in exactly two
    cases: the context carries no session identifier (no string under
    "session_id", or the empty string), or the identifier does not resolve in
    the Session Store. When the session resolves and the lookup of its
    instance in the Instance Registry fails, [getClient] fails with the
    registry's own error, unchanged: [ErrAppNotFound] when the instance has
    no RegisteredApp, a storage error otherwise. No client is returned. *)
Theorem getClient_failures env ctx w :
  (fst (authService.getClient env ctx w) = Err ErrInvalidSession <->
     ctx_session ctx = None \/
     exists sid e, ctx_session ctx = Some sid /\
                   fst (sessionRepo.Get env sid w) = Err e) /\
  (forall sid session w1 e w2,
     ctx_session ctx = Some sid ->
     sessionRepo.Get env sid w = (Ok session, w1) ->
     appRepo.Get env (model.InstanceDomain session) w1 = (Err e, w2) ->
     authService.getClient env ctx w = (Err e, w2) /\
     ((apps w !! model.InstanceDomain session = None /\ e = ErrAppNotFound) \/
      exists msg, e = ErrStorage msg)).
Proof.
  split.
  - destruct (ctx_session ctx) as [sid|] eqn:Hctx.
    + rewrite (getClient_session _ _ _ _ Hctx).
      destruct (sessionRepo.Get env sid w) as [[session|e] w1] eqn:Hget; simpl.
      * assert (Hres : ~ (Some sid = None \/
                 exists sid' e, Some sid = Some sid' /\
                                fst (sessionRepo.Get env sid' w) = Err e)).
        { intros [?|(sid' & e' & [= <-] & He)]; [done|]. by rewrite Hget in He. }
        destruct (appRepo.Get env _ w1) as [[a|e] w2] eqn:Happ; simpl.
        -- split; [done|]. by intros ?%Hres.
        -- apply appRepo_Get_Err in Happ as [_ [[_ ->]|[msg ->]]];
             (split; [done|]; by intros ?%Hres).
      * split; [|done]. intros _. right. exists sid, e. by rewrite Hget.
    + rewrite (getClient_no_session _ _ _ Hctx). simpl. split; [by left|done].
  - intros sid session w1 e w2 Hctx Hget Happ.
    rewrite (getClient_session _ _ _ _ Hctx), Hget, Happ. split; [done|].
    apply appRepo_Get_Err in Happ as [_ Happ].
    apply sessionRepo_Get_Ok in Hget as [_ ->]. done.
Qed.

Lemma getClient_failures_witness :
  authService.getClient stub.env (newCtxWithSesion stub.request) stub.orphan =
  (Err ErrAppNotFound,
   record (EvAppGet "https://example.com") (record (EvSessionGet "session-1") stub.orphan)).
Proof.
  refine (proj1 (proj2 (getClient_failures stub.env _ stub.orphan)
                   "session-1" stub.session _ ErrAppNotFound _ _ _ _));
    reflexivity.
Defined.

(** C1, refuted as stated: the session resolves, its instance has no
    RegisteredApp, and [getClient] fails with [ErrAppNotFound], which is not
    [ErrInvalidSession]. *)
Lemma getClient_missing_app_counterexample :
  ctx_session (newCtxWithSesion stub.request) = Some "session-1" /\
  sessions stub.orphan !! "session-1" = Some stub.session /\
  apps stub.orphan !! model.InstanceDomain stub.session = None /\
  fst (authService.getClient stub.env (newCtxWithSesion stub.request) stub.orphan)
    = Err ErrAppNotFound /\
  fst (authService.getClient stub.env (newCtxWithSesion stub.request) stub.orphan)
    <> Err ErrInvalidSession.
Proof. repeat split; try reflexivity. vm_compute. discriminate. Qed.

(** ** The CSRF check *)

Lemma eqb_false_neq (a b : string) : negb (String.eqb a b) = true <-> a <> b.
Proof.
  rewrite negb_true_iff. split.
  - intros H ->. by rewrite String.eqb_refl in H.
  - intros H. destruct (String.eqb a b) eqn:E; [|done]. by apply String.eqb_eq in E.
Qed.

(** C2 (as amended). [checkCSRF] succeeds if and only if the context carries,
    under "csrf_token", a string equal byte for byte to the session's stored
    [CSRFToken]; in every other case (no token in the context, a value that is
    not a string, any difference) it fails with [ErrInvalidCSRFToken]. There is
    no test for emptiness: an empty token in the context matches a session
    whose stored token is empty. *)
Theorem checkCSRF_exact (ctx : context.Context) (c : model.Client) :
  (authService.checkCSRF ctx c = None <->
   ctx_csrf ctx = Some (model.CSRFToken (model.Client_Session c))) /\
  (authService.checkCSRF ctx c = None \/
   authService.checkCSRF ctx c = Some ErrInvalidCSRFToken).
Proof.
  unfold authService.checkCSRF, ctx_csrf.
  destruct (context.Value_of ctx "csrf_token") as [[s|n|b]|]; simpl;
    try (split; [done | by right]).
  destruct (negb (s =? _)) eqn:E.
  - apply eqb_false_neq in E. split; [|by right]. split; [done|]. by intros [= ->].
  - apply negb_false_iff, String.eqb_eq in E. subst s. split; [done | by left].
Qed.

(** Tokens that differ only in case, or of which one only is empty, are
    rejected. *)
Example checkCSRF_case_sensitive :
  authService.checkCSRF (newCtxWithSesionCSRF stub.request "Secret")
    (model.mkClient (model.Client_Client stub.client)
       (model.mkSession "session-1" "https://example.com" "" "secret"))
  = Some ErrInvalidCSRFToken /\
  authService.checkCSRF (newCtxWithSesionCSRF stub.request "")
    (model.mkClient (model.Client_Client stub.client)
       (model.mkSession "session-1" "https://example.com" "" "secret"))
  = Some ErrInvalidCSRFToken /\
  authService.checkCSRF (newCtxWithSesionCSRF stub.request "secret") stub.client
  = Some ErrInvalidCSRFToken /\
  authService.checkCSRF (newCtxWithSesion stub.request) stub.client
  = Some ErrInvalidCSRFToken.
Proof. repeat split; reflexivity. Qed.

(** C2, refuted as stated: the request's form has no CSRF token, the session
    (as [GetAuthUrl] stores it) has none either, and the check succeeds. *)
Lemma checkCSRF_empty_tokens_counterexample :
  http.Form stub.request !! "csrf_token" = None /\
  model.CSRFToken (model.Client_Session stub.client) = "" /\
  authService.checkCSRF
    (newCtxWithSesionCSRF stub.request (http.FormValue stub.request "csrf_token"))
    stub.client = None.
Proof. repeat split; reflexivity. Qed.

(** ** The guard of the mutating operations *)

(** Each of the eight gateway operations follows one pattern. *)
Lemma call_NewAuthService (env : Env) (s : Service) (ctx : context.Context)
    (client : Writer) (c : option model.Client) (m : Mutation) (w : World) :
  call (authService.NewAuthService env s) ctx client c m w =
  match authService.getClient env ctx w with
  | (Err err, w1) => (refused m err, w1)
  | (Ok c', w1) =>
      match authService.checkCSRF ctx c' with
      | Some err => (refused m err, w1)
      | None => call s ctx client (Some c') m w1
      end
  end.
Proof.
  destruct m; simpl;
    unfold authService.SaveSettings, authService.Like, authService.UnLike,
      authService.Retweet, authService.UnRetweet, authService.PostTweet,
      authService.Follow, authService.UnFollow;
    destruct (authService.getClient env ctx w) as [[c'|err] w1]; try reflexivity;
    destruct (authService.checkCSRF ctx c') as [err|]; reflexivity.
Qed.

(** C3. For each of the eight mutating operations of the gateway and every
    request context: when session resolution fails the call returns that
    error, when the CSRF check fails it returns that error, and in both cases
    the world is the one [getClient] left and the reply is the same for every
    inner service, which is not reached; only when both succeed is the call
    the inner service's operation, on the resolved client. *)
Theorem mutation_guarded (env : Env) (ctx : context.Context)
    (client : Writer) (c : option model.Client) (m : Mutation) (w : World) :
  match authService.getClient env ctx w with
  | (Err err, w1) =>
      forall s, call (authService.NewAuthService env s) ctx client c m w
                = (refused m err, w1)
  | (Ok c', w1) =>
      match authService.checkCSRF ctx c' with
      | Some err =>
          forall s, call (authService.NewAuthService env s) ctx client c m w
                    = (refused m err, w1)
      | None =>
          forall s, call (authService.NewAuthService env s) ctx client c m w
                    = call s ctx client (Some c') m w1
      end
  end.
Proof.
  destruct (authService.getClient env ctx w) as [[c'|err] w1] eqn:Hget.
  - destruct (authService.checkCSRF ctx c') as [err|] eqn:Hcsrf;
      intros s; by rewrite call_NewAuthService, Hget, Hcsrf.
  - intros s. by rewrite call_NewAuthService, Hget.
Qed.

(** A refused call is the same whatever the inner service is. *)
Lemma mutation_refused_any_inner (env : Env) (s s' : Service) (ctx : context.Context)
    (client : Writer) (c : option model.Client) (m : Mutation) (w : World) :
  (forall c', fst (authService.getClient env ctx w) = Ok c' ->
              authService.checkCSRF ctx c' <> None) ->
  call (authService.NewAuthService env s) ctx client c m w =
  call (authService.NewAuthService env s') ctx client c m w.
Proof.
  intros Hguard. rewrite !call_NewAuthService.
  destruct (authService.getClient env ctx w) as [[c'|err] w1]; [|done].
  specialize (Hguard c' eq_refl).
  by destruct (authService.checkCSRF ctx c').
Qed.

(** An unauthenticated request and a request without the CSRF token of its
    session do not reach an inner service that would accept anything. *)
Example mutation_refused_examples :
  call (authService.NewAuthService stub.env stub.content)
       (newCtxWithSesionCSRF stub.anonymous "") (ResponseWriter 0) None
       (MLike "42") stub.signed_in
  = (RCount 0 (Some ErrInvalidSession), stub.signed_in) /\
  fst (call (authService.NewAuthService stub.env stub.content)
         (newCtxWithSesionCSRF stub.request "forged") (ResponseWriter 0) None
         (MPostTweet "hello" "" "" "public" false []) stub.signed_in)
  = RID "" (Some ErrInvalidCSRFToken) /\
  fst (call (authService.NewAuthService stub.env stub.content)
         (newCtxWithSesionCSRF stub.request "") (ResponseWriter 0) None
         (MPostTweet "hello" "" "" "public" false []) stub.signed_in)
  = RID "status-1" None.
Proof. repeat split; reflexivity. Qed.

(** ** [getClient] only reads *)

Lemma getClient_reads_only (env : Env) (ctx : context.Context) (w : World) :
  sessions (snd (authService.getClient env ctx w)) = sessions w /\
  apps (snd (authService.getClient env ctx w)) = apps w /\
  exists evs, trace (snd (authService.getClient env ctx w)) = (trace w ++ evs)%list /\
              Forall is_lookup evs.
Proof.
  destruct (ctx_session ctx) as [sid|] eqn:Hctx.
  - rewrite (getClient_session _ _ _ _ Hctx).
    pose proof (sessionRepo_Get_world env sid w) as Hw1.
    destruct (sessionRepo.Get env sid w) as [[session|e] w1]; simpl in Hw1; subst w1.
    + pose proof (appRepo_Get_world env (model.InstanceDomain session)
                    (record (EvSessionGet sid) w)) as Hw2.
      destruct (appRepo.Get env _ _) as [[a|e] w2]; simpl in Hw2; subst w2; simpl;
        (repeat split; try done;
         exists [EvSessionGet sid; EvAppGet (model.InstanceDomain session)];
         split; [by rewrite <- app_assoc | by repeat constructor]).
    + simpl. repeat split; try done.
      exists [EvSessionGet sid]. split; [done | by repeat constructor].
  - rewrite (getClient_no_session _ _ _ Hctx). simpl. repeat split; try done.
    exists []. split; [by rewrite app_nil_r | constructor].
Qed.

(** A lookup is neither a network call nor a write. *)
Lemma lookup_not_network (ev : Event) : is_lookup ev -> ~ is_network ev.
Proof. destruct ev; simpl; tauto. Qed.

(** ** The empty authorization code *)

(** C5 (as amended). The inner service's [GetUserToken] fails with
    [ErrInvalidArgument] on an empty authorization code for every context,
    before any store access or network call. The gateway's [GetUserToken]
    resolves the session first: on an empty code it fails with [getClient]'s
    error when the session does not resolve, and with [ErrInvalidArgument]
    when it does; in both cases the only effects are the repository lookups
    of [getClient] (no network call, no write). *)
Theorem GetUserToken_empty_code (env : Env) (svc : service.service)
    (content : Service) (ctx : context.Context) (sessionID : string)
    (c : option model.Client) (w : World) :
  service.GetUserToken env svc ctx sessionID c "" w
    = (("", Some ErrInvalidArgument), w) /\
  authService.GetUserToken env (service.NewService env svc content) ctx sessionID c "" w
    = (match fst (authService.getClient env ctx w) with
       | Err err => ("", Some err)
       | Ok _ => ("", Some ErrInvalidArgument)
       end,
       snd (authService.getClient env ctx w)) /\
  sessions (snd (authService.getClient env ctx w)) = sessions w /\
  apps (snd (authService.getClient env ctx w)) = apps w /\
  exists evs, trace (snd (authService.getClient env ctx w)) = (trace w ++ evs)%list /\
              Forall is_lookup evs.
Proof.
  split; [reflexivity|]. split; [|apply getClient_reads_only].
  unfold authService.GetUserToken.
  by destruct (authService.getClient env ctx w) as [[c'|err] w1].
Qed.

(** C5, refuted as stated: for a request without a session the gateway answers
    the empty code with [ErrInvalidSession], not [ErrInvalidArgument]. *)
Lemma GetUserToken_empty_code_counterexample :
  authService.GetUserToken stub.env
    (service.NewService stub.env stub.svc stub.content)
    (newCtxWithSesion stub.anonymous) "" None "" stub.empty
  = (("", Some ErrInvalidSession), stub.empty) /\
  ErrInvalidSession <> ErrInvalidArgument.
Proof. split; [reflexivity | discriminate]. Qed.

(** ** Normalization of the instance domain *)

Lemma HasPrefix_https (s : string) : HasPrefix ("https://" ++ s) "https://" = true.
Proof. unfold HasPrefix. simpl. by destruct s. Qed.

Lemma normalize_without_https (instance : string) :
  HasPrefix instance "https://" = false ->
  service.normalize instance = "https://" ++ instance.
Proof. unfold service.normalize. by intros ->. Qed.

Lemma normalize_idempotent (instance : string) :
  service.normalize (service.normalize instance) = service.normalize instance.
Proof.
  unfold service.normalize at 2 3.
  destruct (HasPrefix instance "https://") eqn:E; simpl.
  - unfold service.normalize. by rewrite E.
  - unfold service.normalize. by rewrite HasPrefix_https.
Qed.

Lemma prefix_append (p s : string) :
  String.prefix p s = true -> exists rest, s = p ++ rest.
Proof.
  revert s. induction p as [|a p IH]; intros s H.
  - by exists s.
  - destruct s as [|b s]; [done|]. cbn [String.prefix] in H.
    destruct (ascii_dec a b) as [->|]; [|done].
    destruct (IH s H) as [rest ->]. by exists rest.
Qed.

(** A domain without a scheme does not begin with "https://". *)
Lemma hasScheme_false_HasPrefix (s : string) :
  hasScheme s = false -> HasPrefix s "https://" = false.
Proof.
  unfold hasScheme, HasPrefix. intros H.
  destruct (String.prefix "https://" s) eqn:E; [|done]. exfalso.
  apply prefix_append in E as [rest ->].
  destruct rest; vm_compute in H; discriminate.
Qed.

Lemma GetAuthUrl_normalized (env : Env) (svc : service.service)
    (ctx : context.Context) (instance : string) (w : World) :
  service.GetAuthUrl env svc ctx instance w =
  service.GetAuthUrl env svc ctx (service.normalize instance) w.
Proof. unfold service.GetAuthUrl. by rewrite normalize_idempotent. Qed.

(** ** Sign-in *)


Lemma GetAuthUrl_concerns (env : Env) (svc : service.service)
    (ctx : context.Context) (instance : string) (w : World) :
  exists evs,
    trace (snd (service.GetAuthUrl env svc ctx instance w)) = (trace w ++ evs)%list /\
    Forall (concerns (service.normalize instance)) evs.
Proof.
  unfold_signin. simpl.
  repeat case_match; simplify_eq/=; rewrite <- ?app_assoc; simpl;
    (eexists; split; [reflexivity|]; by repeat constructor).
Qed.

Lemma GetAuthUrl_success (env : Env) (svc : service.service)
    (ctx : context.Context) (instance : string) (w w' : World)
    (redirectUrl sessionID : string) :
  service.GetAuthUrl env svc ctx instance w = ((redirectUrl, sessionID, None), w') ->
  sessionID = env_NewSessionId env (now w) /\
  sessions w' =
    <[sessionID := model.mkSession sessionID (service.normalize instance) "" ""]>
      (sessions w) /\
  exists app,
    apps w' !! service.normalize instance = Some app /\
    service.authorizeUrl env svc (service.normalize instance) app = Ok redirectUrl.
Proof.
  unfold_signin. simpl. intros H.
  repeat case_match; simplify_eq/=; (split; [done|]; split; [done|]).
  all: eexists; split; [first [eassumption | apply lookup_insert_eq] | done].
Qed.

Lemma GetAuthUrl_registered (env : Env) (svc : service.service)
    (ctx : context.Context) (instance : string) (w : World) (a : model.App) :
  apps w !! service.normalize instance = Some a ->
  apps (snd (service.GetAuthUrl env svc ctx instance w)) = apps w /\
  exists evs,
    trace (snd (service.GetAuthUrl env svc ctx instance w)) = (trace w ++ evs)%list /\
    Forall (fun ev => ~ is_registration ev) evs.
Proof.
  unfold_signin. simpl. intros H.
  repeat case_match; simplify_eq/=; rewrite <- ?app_assoc; simpl;
    (split; [done|]; eexists; split; [reflexivity|]; repeat constructor; by intros []).
Qed.

Lemma GetAuthUrl_registration_fails (env : Env) (svc : service.service)
    (ctx : context.Context) (instance : string) (w : World) (e : error) :
  (forall t ev, env_storageFault env t ev = None) ->
  apps w !! service.normalize instance = None ->
  (forall t, env_RegisterApp env t
               (service.appConfig svc (service.normalize instance)) = Err e) ->
  let sessionID := env_NewSessionId env (now w) in
  let session := model.mkSession sessionID (service.normalize instance) "" "" in
  exists w',
    service.GetAuthUrl env svc ctx instance w = (("", sessionID, Some e), w') /\
    sessions w' = <[sessionID := session]> (sessions w) /\
    apps w' = apps w /\
    trace w' = (trace w ++
                [EvNewSessionId; EvSessionAdd session;
                 EvAppGet (service.normalize instance);
                 EvRegisterApp (service.appConfig svc (service.normalize instance))])%list.
Proof.
  intros Hfault Happ Hreg. unfold_signin. simpl.
  rewrite Hfault. simpl. rewrite Hfault, Happ. simpl. rewrite Hreg.
  eexists. split; [reflexivity|]. simpl. rewrite <- !app_assoc. done.
Qed.

Lemma ctx_session_cookie (req : http.Request) (sid : string) :
  http.Cookie req "session_id" = Some sid -> sid <> "" ->
  ctx_session (newCtxWithSesion req) = Some sid.
Proof.
  intros Hc Hne. unfold newCtxWithSesion. rewrite Hc.
  unfold ctx_session. simpl. by destruct (decide (sid = "")).
Qed.

Lemma code_not_empty (code : string) :
  code <> "" -> (String.length code <? 1)%nat = false.
Proof. by destruct code. Qed.


Lemma GetAuthUrl_accepts (env : Env) (svc : service.service)
    (ctx : context.Context) (instance code token : string) (w : World) :
  stub_accepts env svc instance code token ->
  exists redirectUrl w1,
    service.GetAuthUrl env svc ctx instance w
    = ((redirectUrl, env_NewSessionId env (now w), None), w1).
Proof.
  intros [Hfault _ Hreg [u Hu] _]. unfold_signin. simpl.
  rewrite Hfault. simpl. rewrite Hfault.
  unfold service.authorizeUrl. rewrite Hu.
  destruct (apps w !! service.normalize instance) as [a|]; simpl; [by eauto|].
  destruct (decide (ErrAppNotFound <> ErrAppNotFound)); [done|].
  match goal with |- context [env_RegisterApp env ?t _] => destruct (Hreg t) as [a ->] end.
  rewrite Hfault. simpl. by eauto.
Qed.

Lemma GetUserToken_accepts (env : Env) (svc : service.service) (content : Service)
    (ctx : context.Context) (sessionID : string) (c : option model.Client)
    (sid code token : string) (session : model.Session) (app : model.App) (w : World) :
  (forall t ev, env_storageFault env t ev = None) ->
  (forall t target payload,
      ("code", code) ∈ payload ->
      exists body,
        env_http_Post env t target "application/json" payload = Ok body /\
        env_json_Decode env body = Ok token) ->
  code <> "" ->
  ctx_session ctx = Some sid ->
  sessions w !! sid = Some session ->
  model.ID session = sid ->
  apps w !! model.InstanceDomain session = Some app ->
  exists w',
    authService.GetUserToken env (service.NewService env svc content)
      ctx sessionID c code w = ((token, None), w') /\
    sessions w' =
      <[sid := model.mkSession (model.ID session) (model.InstanceDomain session)
                 token (model.CSRFToken session)]> (sessions w) /\
    apps w' = apps w.
Proof.
  intros Hfault Hpost Hcode%code_not_empty Hctx Hs Hid Happ.
  unfold authService.GetUserToken. rewrite (getClient_session _ _ _ _ Hctx).
  unfold_token. simpl.
  rewrite Hfault, Hs. simpl. rewrite Hfault, Happ. simpl.
  unfold service.GetUserToken, sessionRepo.Get, appRepo.Get, record, now. simpl.
  rewrite Hcode, Hid, Hfault, Hs. simpl. rewrite Hfault, Happ. simpl.
  match goal with
  | |- context [env_http_Post env ?t ?target _ ?payload] =>
      destruct (Hpost t target payload) as (body & -> & ->)
  end.
  { unfold service.tokenPayload. set_solver. }
  simpl. rewrite Hfault. eexists. split; [reflexivity|]. done.
Qed.

Lemma keyed_empty : keyed ∅.
Proof. intros key s H. by rewrite lookup_empty in H. Qed.

Lemma keyed_insert (m : gmap string model.Session) (s : model.Session) :
  keyed m -> keyed (<[model.ID s := s]> m).
Proof.
  intros Hm key s'. rewrite lookup_insert. case_decide.
  - by intros [= <-].
  - apply Hm.
Qed.

Lemma sessionRepo_Add_keyed (env : Env) (s : model.Session) (w : World) :
  keyed (sessions w) -> keyed (sessions (snd (sessionRepo.Add env s w))).
Proof.
  intros Hw. unfold sessionRepo.Add.
  destruct (env_storageFault _ _ _); simpl; [done|]. by apply keyed_insert.
Qed.

Lemma GetAuthUrl_keyed (env : Env) (svc : service.service)
    (ctx : context.Context) (instance : string) (w : World) :
  keyed (sessions w) ->
  keyed (sessions (snd (service.GetAuthUrl env svc ctx instance w))).
Proof.
  intros Hw. unfold_signin. simpl.
  repeat case_match; simplify_eq/=; try done;
    by apply (keyed_insert _ (model.mkSession _ _ _ _)).
Qed.

Lemma sessionRepo_Add_Ok (env : Env) (s : model.Session) (w w' : World) :
  sessionRepo.Add env s w = (None, w') ->
  sessions w' = <[model.ID s := s]> (sessions w) /\ apps w' = apps w.
Proof.
  unfold sessionRepo.Add. destruct (env_storageFault _ _ _); [done|].
  by intros [= <-].
Qed.

(** The inner token exchange writes to neither repository. *)
Lemma service_GetUserToken_stores (env : Env) (svc : service.service)
    (ctx : context.Context) (sessionID : string) (c : option model.Client)
    (code : string) (w : World) :
  sessions (snd (service.GetUserToken env svc ctx sessionID c code w)) = sessions w /\
  apps (snd (service.GetUserToken env svc ctx sessionID c code w)) = apps w.
Proof.
  unfold service.GetUserToken.
  destruct (String.length code <? 1)%nat; [done|].
  pose proof (sessionRepo_Get_world env sessionID w) as Hw1.
  destruct (sessionRepo.Get env sessionID w) as [[session|e] w1];
    simpl in Hw1; subst w1; [|done].
  pose proof (appRepo_Get_world env (model.InstanceDomain session)
                (record (EvSessionGet sessionID) w)) as Hw2.
  destruct (appRepo.Get env _ _) as [[app|e] w2]; simpl in Hw2; subst w2; [|done].
  destruct (env_http_Post _ _ _ _ _); [|done].
  by destruct (env_json_Decode _ _).
Qed.

Lemma GetUserToken_frame (env : Env) (svc : service.service) (content : Service)
    (ctx : context.Context) (sessionID : string) (c : option model.Client)
    (code token : string) (w w' : World) :
  keyed (sessions w) ->
  authService.GetUserToken env (service.NewService env svc content)
    ctx sessionID c code w = ((token, None), w') ->
  exists sid old,
    ctx_session ctx = Some sid /\
    sessions w !! sid = Some old /\
    model.ID old = sid /\
    sessions w' =
      <[sid := model.mkSession (model.ID old) (model.InstanceDomain old)
                 token (model.CSRFToken old)]> (sessions w) /\
    apps w' = apps w.
Proof.
  intros Hkeyed. unfold authService.GetUserToken.
  destruct (ctx_session ctx) as [sid|] eqn:Hctx.
  - rewrite (getClient_session _ _ _ _ Hctx).
    destruct (sessionRepo.Get env sid w) as [[old|e] w1] eqn:Hget; [|done].
    apply sessionRepo_Get_Ok in Hget as [Hs ->].
    destruct (appRepo.Get env _ _) as [[app|e] w2] eqn:Happ; [|done].
    apply appRepo_Get_Ok in Happ as [_ ->].
    cbn [iGetUserToken service.NewService model.Client_Session model.ID].
    match goal with
    | |- context [service.GetUserToken env svc ctx ?i ?cl code ?w0] =>
        pose proof (service_GetUserToken_stores env svc ctx i cl code w0) as [Hs3 Ha3];
        destruct (service.GetUserToken env svc ctx i cl code w0) as [[tok [e|]] w3];
        [done|]
    end.
    simpl in Hs3, Ha3.
    destruct (sessionRepo.Add env _ w3) as [[e|] w4] eqn:Hadd; [done|].
    apply sessionRepo_Add_Ok in Hadd as [Hs4 Ha4]. simpl in Hs4.
    intros [= <- <-]. exists sid, old.
    pose proof (Hkeyed _ _ Hs) as Hid.
    rewrite Hs4, Ha4, Hs3, Ha3, Hid. done.
  - by rewrite (getClient_no_session _ _ _ Hctx).
Qed.

(** ** The claims about sign-in *)

(** C7. When the Instance Registry already holds a RegisteredApp for the
    (normalized) instance, [GetAuthUrl] performs no remote registration and
    writes nothing to the registry: the registry after the call is the
    registry before it, so it still holds exactly one application for that
    instance URL. *)
Theorem GetAuthUrl_registers_once (env : Env) (svc : service.service)
    (content : Service) (ctx : context.Context) (instance : string) (w : World)
    (a : model.App) :
  apps w !! service.normalize instance = Some a ->
  apps (snd (authService.GetAuthUrl env (service.NewService env svc content)
               ctx instance w)) = apps w /\
  exists evs,
    trace (snd (authService.GetAuthUrl env (service.NewService env svc content)
                  ctx instance w)) = (trace w ++ evs)%list /\
    Forall (fun ev => ~ is_registration ev) evs.
Proof.
  unfold authService.GetAuthUrl. cbn [iGetAuthUrl service.NewService].
  apply GetAuthUrl_registered.
Qed.

Lemma GetAuthUrl_registers_once_witness :
  apps stub.signed_in !! service.normalize "example.com" = Some stub.app /\
  apps (snd (authService.GetAuthUrl stub.env
               (service.NewService stub.env stub.svc stub.content)
               context.Background "example.com" stub.signed_in))
  = apps stub.signed_in.
Proof.
  split; [reflexivity|].
  exact (proj1 (GetAuthUrl_registers_once stub.env stub.svc stub.content
                  context.Background "example.com" stub.signed_in stub.app eq_refl)).
Defined.

(** Signing in twice from a new instance registers it once: after a first
    successful call, a second call leaves the registry as it is and performs
    no registration. *)
Lemma GetAuthUrl_twice (env : Env) (svc : service.service)
    (ctx ctx' : context.Context) (instance : string) (w w1 : World)
    (redirectUrl sessionID : string) :
  service.GetAuthUrl env svc ctx instance w = ((redirectUrl, sessionID, None), w1) ->
  apps (snd (service.GetAuthUrl env svc ctx' instance w1)) = apps w1 /\
  exists evs,
    trace (snd (service.GetAuthUrl env svc ctx' instance w1)) = (trace w1 ++ evs)%list /\
    Forall (fun ev => ~ is_registration ev) evs.
Proof.
  intros (_ & _ & app & Happ & _)%GetAuthUrl_success.
  by apply GetAuthUrl_registered with app.
Qed.

(** C8. [GetAuthUrl] persists the new session, with an empty access token,
    before it attempts registration: when the medium works, the instance is
    not registered yet and the remote registration fails with [e], the call
    returns [e], the session is in the Session Store afterwards (nothing
    removes it), the registry is unchanged, and the effects are, in this
    order: draw an id, write the session, look up the registry, register. *)
Theorem GetAuthUrl_orphan_session (env : Env) (svc : service.service)
    (content : Service) (ctx : context.Context) (instance : string) (w : World)
    (e : error) :
  (forall t ev, env_storageFault env t ev = None) ->
  apps w !! service.normalize instance = None ->
  (forall t, env_RegisterApp env t
               (service.appConfig svc (service.normalize instance)) = Err e) ->
  let sessionID := env_NewSessionId env (now w) in
  let session := model.mkSession sessionID (service.normalize instance) "" "" in
  exists w',
    authService.GetAuthUrl env (service.NewService env svc content) ctx instance w
      = (("", sessionID, Some e), w') /\
    sessions w' !! sessionID = Some session /\
    sessions w' = <[sessionID := session]> (sessions w) /\
    apps w' = apps w /\
    trace w' = (trace w ++
                [EvNewSessionId; EvSessionAdd session;
                 EvAppGet (service.normalize instance);
                 EvRegisterApp (service.appConfig svc (service.normalize instance))])%list.
Proof.
  intros Hfault Happ Hreg sessionID session.
  destruct (GetAuthUrl_registration_fails env svc ctx instance w e Hfault Happ Hreg)
    as (w' & Hcall & Hs & Ha & Ht).
  exists w'. split; [exact Hcall|]. split; [|done].
  rewrite Hs. apply lookup_insert_eq.
Qed.

Lemma GetAuthUrl_orphan_session_witness :
  exists w',
    authService.GetAuthUrl stub.env_refusing
      (service.NewService stub.env_refusing stub.svc stub.content)
      context.Background "example.com" stub.empty
    = (("", "session-1", Some (ErrRemote "registration refused")), w') /\
    sessions w' !! "session-1" = Some stub.session.
Proof.
  destruct (GetAuthUrl_orphan_session stub.env_refusing stub.svc stub.content
              context.Background "example.com" stub.empty
              (ErrRemote "registration refused")
              (fun _ _ => eq_refl) eq_refl (fun _ => eq_refl))
    as (w' & Hcall & Hs & _).
  exists w'. split; [exact Hcall | exact Hs].
Defined.

(** C4. Round trip. With a cooperating store and remote instance,
    [GetAuthUrl] for an instance succeeds and stores a session with an empty
    access token; [GetUserToken], called with the cookie of that session and
    a code the instance accepts, succeeds, returns the token the instance
    answered, and the session stored under the session id afterwards is the
    same record with that token written over the empty one. *)
Theorem signin_round_trip (env : Env) (svc : service.service) (content : Service)
    (ctx : context.Context) (instance code token : string) (w : World) :
  stub_accepts env svc instance code token ->
  code <> "" ->
  exists redirectUrl sessionID w1 w2,
    authService.GetAuthUrl env (service.NewService env svc content) ctx instance w
      = ((redirectUrl, sessionID, None), w1) /\
    sessions w1 !! sessionID
      = Some (model.mkSession sessionID (service.normalize instance) "" "") /\
    (forall req sessionID' c,
        http.Cookie req "session_id" = Some sessionID ->
        authService.GetUserToken env (service.NewService env svc content)
          (newCtxWithSesion req) sessionID' c code w1 = ((token, None), w2)) /\
    sessions w2 !! sessionID
      = Some (model.mkSession sessionID (service.normalize instance) token "") /\
    (forall key, key <> sessionID -> sessions w2 !! key = sessions w1 !! key).
Proof.
  intros Hstub Hcode.
  destruct (GetAuthUrl_accepts env svc ctx instance code token w Hstub)
    as (redirectUrl & w1 & Hurl).
  pose proof (GetAuthUrl_success _ _ _ _ _ _ _ _ Hurl) as (_ & Hs1 & app & Happ & _).
  destruct Hstub as [Hfault Hids _ _ Hpost].
  set (sessionID := env_NewSessionId env (now w)) in *.
  set (session := model.mkSession sessionID (service.normalize instance) "" "") in *.
  assert (Hlook : sessions w1 !! sessionID = Some session)
    by (rewrite Hs1; apply lookup_insert_eq).
  destruct (GetUserToken_accepts env svc content
              (context.WithValue context.Background "session_id"
                 (context.VString sessionID))
              "" None sessionID code token session app w1)
    as (w2 & Htoken & Hs2 & _); try done.
  { unfold ctx_session. simpl. destruct (decide (sessionID = "")) as [E|]; [|done].
    by destruct (Hids (now w)). }
  exists redirectUrl, sessionID, w1, w2.
  split; [exact Hurl|]. split; [exact Hlook|]. split; [|split].
  - intros req sessionID' c Hcookie. rewrite <- Htoken.
    unfold newCtxWithSesion. by rewrite Hcookie.
  - rewrite Hs2. apply lookup_insert_eq.
  - intros key Hkey. rewrite Hs2. by apply lookup_insert_ne.
Qed.

Lemma stub_env_accepts (instance code : string) :
  stub_accepts stub.env stub.svc instance code "stub-token".
Proof.
  split; intros; simpl; try done; eauto.
Qed.

Lemma signin_round_trip_witness :
  exists redirectUrl sessionID w1 w2,
    authService.GetAuthUrl stub.env (service.NewService stub.env stub.svc stub.content)
      context.Background "example.com" stub.empty
      = ((redirectUrl, sessionID, None), w1) /\
    authService.GetUserToken stub.env
      (service.NewService stub.env stub.svc stub.content)
      (newCtxWithSesion
         {| http.Cookies := {[ "session_id" := sessionID ]}; http.Form := ∅ |})
      "" None "code-1" w1 = (("stub-token", None), w2) /\
    sessions w2 !! sessionID
      = Some (model.mkSession sessionID "https://example.com" "stub-token" "").
Proof.
  destruct (signin_round_trip stub.env stub.svc stub.content context.Background
              "example.com" "code-1" "stub-token" stub.empty
              (stub_env_accepts "example.com" "code-1") ltac:(discriminate))
    as (redirectUrl & sessionID & w1 & w2 & Hurl & _ & Htoken & Hs & _).
  exists redirectUrl, sessionID, w1, w2.
  split; [exact Hurl|]. split; [|exact Hs].
  apply Htoken. apply lookup_singleton_eq.
Defined.

(** The round trip, evaluated. *)
Example signin_round_trip_evaluated :
  let S := service.NewService stub.env stub.svc stub.content in
  let '((redirectUrl, sessionID, err), w1) :=
    authService.GetAuthUrl stub.env S context.Background "example.com" stub.empty in
  let req := {| http.Cookies := {[ "session_id" := sessionID ]}; http.Form := ∅ |} in
  let '((token, err'), w2) :=
    authService.GetUserToken stub.env S (newCtxWithSesion req) "" None "code-1" w1 in
  err = None /\ err' = None /\ token = "stub-token" /\
  sessions w1 !! "session-1"
    = Some (model.mkSession "session-1" "https://example.com" "" "") /\
  sessions w2 !! "session-1"
    = Some (model.mkSession "session-1" "https://example.com" "stub-token" "").
Proof. vm_compute. repeat split; reflexivity. Qed.


(** C10. Frame of token persistence. In a Session Store that files each
    session under its own id, a successful [GetUserToken] of the gateway
    replaces the record of the context's session by a record that differs
    from it in [AccessToken] only ([ID], [InstanceDomain] and [CSRFToken] are
    those of the stored record); every other session and the whole Instance
    Registry are as before. *)
Theorem GetUserToken_frame_property (env : Env) (svc : service.service)
    (content : Service) (ctx : context.Context) (sessionID : string)
    (c : option model.Client) (code token : string) (w w' : World) :
  keyed (sessions w) ->
  authService.GetUserToken env (service.NewService env svc content)
    ctx sessionID c code w = ((token, None), w') ->
  exists sid old new,
    ctx_session ctx = Some sid /\
    sessions w !! sid = Some old /\
    sessions w' !! sid = Some new /\
    model.AccessToken new = token /\
    model.ID new = model.ID old /\
    model.InstanceDomain new = model.InstanceDomain old /\
    model.CSRFToken new = model.CSRFToken old /\
    (forall key, key <> sid -> sessions w' !! key = sessions w !! key) /\
    apps w' = apps w.
Proof.
  intros Hkeyed Hcall.
  destruct (GetUserToken_frame _ _ _ _ _ _ _ _ _ _ Hkeyed Hcall)
    as (sid & old & Hctx & Hold & _ & Hs & Ha).
  exists sid, old, (model.mkSession (model.ID old) (model.InstanceDomain old)
                      token (model.CSRFToken old)).
  rewrite Hs. repeat split; try done.
  - apply lookup_insert_eq.
  - intros key Hkey. by apply lookup_insert_ne.
Qed.

Lemma GetUserToken_frame_property_witness :
  keyed (sessions stub.signed_in) /\
  exists new,
    sessions (snd (authService.GetUserToken stub.env
                     (service.NewService stub.env stub.svc stub.content)
                     (newCtxWithSesion stub.request) "" None "code-1" stub.signed_in))
      !! "session-1" = Some new /\
    model.AccessToken new = "stub-token" /\
    model.CSRFToken new = model.CSRFToken stub.session.
Proof.
  assert (Hkeyed : keyed (sessions stub.signed_in)).
  { intros key s H. cbn [stub.signed_in sessions] in H.
    apply lookup_singleton_Some in H as [<- <-]. reflexivity. }
  split; [exact Hkeyed|].
  destruct (GetUserToken_frame_property stub.env stub.svc stub.content
              (newCtxWithSesion stub.request) "" None "code-1" "stub-token"
              stub.signed_in _ Hkeyed eq_refl)
    as (sid & old & new & Hctx & Hold & Hnew & Htok & _ & _ & Hcsrf & _).
  injection Hctx as <-.
  exists new. split; [exact Hnew|]. split; [exact Htok|].
  rewrite Hcsrf. f_equal.
  apply (inj Some). rewrite <- Hold. reflexivity.
Defined.

(** The sessions stay filed under their own ids through sign-in. *)
Lemma GetUserToken_keyed (env : Env) (svc : service.service) (content : Service)
    (ctx : context.Context) (sessionID : string) (c : option model.Client)
    (code token : string) (w w' : World) :
  keyed (sessions w) ->
  authService.GetUserToken env (service.NewService env svc content)
    ctx sessionID c code w = ((token, None), w') ->
  keyed (sessions w').
Proof.
  intros Hkeyed Hcall.
  destruct (GetUserToken_frame _ _ _ _ _ _ _ _ _ _ Hkeyed Hcall)
    as (sid & old & _ & _ & Hid & -> & _).
  rewrite <- Hid at 1.
  by apply (keyed_insert _ (model.mkSession _ _ _ _)).
Qed.

(** * Further properties *)


(** ** The pages of the gateway *)

Lemma serve_NewAuthPages (env : Env) (s : PageService) (ctx : context.Context)
    (client : Writer) (c : option model.Client) (p : Page) (w : World) :
  serve (authPages.NewAuthPages env s) ctx client c p w =
  match authService.getClient env ctx w with
  | (Err err, w1) => (Some err, w1)
  | (Ok c', w1) => serve s ctx client (Some c') p w1
  end.
Proof.
  destruct p; simpl;
    unfold authPages.ServeTimelinePage, authPages.ServeThreadPage,
      authPages.ServeNotificationPage, authPages.ServeUserPage,
      authPages.ServeAboutPage, authPages.ServeEmojiPage,
      authPages.ServeLikedByPage, authPages.ServeRetweetedByPage,
      authPages.ServeFollowingPage, authPages.ServeFollowersPage,
      authPages.ServeSearchPage, authPages.ServeSettingsPage;
    by destruct (authService.getClient env ctx w) as [[c'|err] w1].
Qed.

(** X1. Each of the twelve pages of the gateway that take a client is
    guarded by session resolution alone. When [getClient] fails the page
    returns that error, whatever the inner service is, which is not
    reached; when it succeeds the page is the inner page on the resolved
    client, and a client passed in by the caller is ignored. No CSRF token
    is looked at: adding one to the context, or a wrong one, changes nothing
    but the context the inner page receives. *)
Theorem page_guarded (env : Env) (ctx : context.Context) (client : Writer)
    (c : option model.Client) (p : Page) (w : World) :
  match authService.getClient env ctx w with
  | (Err err, w1) =>
      forall s, serve (authPages.NewAuthPages env s) ctx client c p w = (Some err, w1)
  | (Ok c', w1) =>
      forall s (csrf : context.Value),
        serve (authPages.NewAuthPages env s) ctx client c p w
          = serve s ctx client (Some c') p w1 /\
        serve (authPages.NewAuthPages env s)
          (context.WithValue ctx "csrf_token" csrf) client c p w
          = serve s (context.WithValue ctx "csrf_token" csrf) client (Some c') p w1
  end.
Proof.
  destruct (authService.getClient env ctx w) as [[c'|err] w1] eqn:Hget.
  - intros s csrf. rewrite !serve_NewAuthPages.
    assert (Hsame : authService.getClient env
                      (context.WithValue ctx "csrf_token" csrf) w
                    = authService.getClient env ctx w) by reflexivity.
    by rewrite Hsame, Hget.
  - intros s. by rewrite serve_NewAuthPages, Hget.
Qed.

(** X2. The error page of the gateway cannot be refused: for every context
    the inner [ServeErrorPage] is reached with the error to show. It gets
    the resolved client when the session resolves and a nil client when it
    does not (the resolution error is dropped), never the client the caller
    passed; a context without a session costs no repository access. *)
Theorem ServeErrorPage_always_served (env : Env) (s : PageService)
    (ctx : context.Context) (client : Writer) (c c0 : option model.Client)
    (err : error) (w : World) :
  authPages.ServeErrorPage env s ctx client c err w
    = authPages.ServeErrorPage env s ctx client c0 err w /\
  match authService.getClient env ctx w with
  | (Err _, w1) =>
      authPages.ServeErrorPage env s ctx client c err w
        = pServeErrorPage s ctx client None err w1
  | (Ok c', w1) =>
      authPages.ServeErrorPage env s ctx client c err w
        = pServeErrorPage s ctx client (Some c') err w1
  end /\
  (ctx_session ctx = None ->
   authPages.ServeErrorPage env s ctx client c err w
     = pServeErrorPage s ctx client None err w).
Proof.
  split; [reflexivity|]. split.
  - unfold authPages.ServeErrorPage.
    by destruct (authService.getClient env ctx w) as [[c'|e] w1].
  - intros Hctx. unfold authPages.ServeErrorPage.
    by rewrite (getClient_no_session _ _ _ Hctx).
Qed.

Lemma ServeErrorPage_always_served_witness :
  authPages.ServeErrorPage stub.env fixture.pages (newCtxWithSesion stub.anonymous)
    (ResponseWriter 0) None ErrInvalidSession stub.empty = stub.empty.
Proof.
  exact (proj2 (proj2 (ServeErrorPage_always_served stub.env fixture.pages
                         (newCtxWithSesion stub.anonymous) (ResponseWriter 0)
                         None None ErrInvalidSession stub.empty)) eq_refl).
Defined.

(** ** From the request to the guard *)

(** X3. The two values the handlers put in a context do not shadow each
    other: the session a context resolves to does not depend on the CSRF
    token layered on top of it, the CSRF check does not depend on the
    session identifier, and the context of a mutating request carries
    exactly the token the handler read from the form. *)
Theorem request_context_layers (env : Env) (req : http.Request) (csrfToken : string)
    (c : model.Client) (w : World) :
  authService.getClient env (newCtxWithSesionCSRF req csrfToken) w
    = authService.getClient env (newCtxWithSesion req) w /\
  ctx_session (newCtxWithSesionCSRF req csrfToken) = ctx_session (newCtxWithSesion req) /\
  ctx_csrf (newCtxWithSesionCSRF req csrfToken) = Some csrfToken /\
  ctx_csrf (newCtxWithSesion req) = None /\
  authService.checkCSRF (newCtxWithSesion req) c = Some ErrInvalidCSRFToken /\
  authService.checkCSRF (newCtxWithSesionCSRF req csrfToken) c
    = if String.eqb csrfToken (model.CSRFToken (model.Client_Session c))
      then None else Some ErrInvalidCSRFToken.
Proof.
  repeat split; try reflexivity.
  - unfold newCtxWithSesion. by destruct (http.Cookie req "session_id").
  - unfold newCtxWithSesion, authService.checkCSRF.
    by destruct (http.Cookie req "session_id").
  - unfold authService.checkCSRF, newCtxWithSesionCSRF. simpl.
    by destruct (csrfToken =? _).
Qed.

(** X4. The guard of the mutating operations in terms of the request: a
    call made with the context of a mutating request is refused with the
    resolution error when the session cookie does not resolve, refused with
    [ErrInvalidCSRFToken] when the form's token is not the session's stored
    one, and otherwise handed to the inner service. *)
Theorem mutation_by_request (env : Env) (s : Service) (req : http.Request)
    (csrfToken : string) (client : Writer) (c : option model.Client)
    (m : Mutation) (w : World) :
  call (authService.NewAuthService env s) (newCtxWithSesionCSRF req csrfToken)
    client c m w =
  match authService.getClient env (newCtxWithSesion req) w with
  | (Err err, w1) => (refused m err, w1)
  | (Ok c', w1) =>
      if String.eqb csrfToken (model.CSRFToken (model.Client_Session c'))
      then call s (newCtxWithSesionCSRF req csrfToken) client (Some c') m w1
      else (refused m ErrInvalidCSRFToken, w1)
  end.
Proof.
  rewrite call_NewAuthService.
  change (authService.getClient env (newCtxWithSesionCSRF req csrfToken) w)
    with (authService.getClient env (newCtxWithSesion req) w).
  destruct (authService.getClient env (newCtxWithSesion req) w) as [[c'|err] w1];
    [|done].
  unfold authService.checkCSRF, newCtxWithSesionCSRF. simpl.
  by destruct (csrfToken =? _).
Qed.

(** X5. A multipart post whose form has no "csrf_token" field, or an empty
    list of values for it, is treated as one carrying the empty token: when
    the session resolves and its stored CSRF token is not empty, the post is
    refused with [ErrInvalidCSRFToken] and does not reach the inner
    service. *)
Theorem post_without_csrf_field (env : Env) (s : Service) (req : http.Request)
    (mf : gmap string (list string)) (client : Writer) (c : option model.Client)
    (content replyToID format visibility : string) (isNSFW : bool)
    (files : list FileHeader) (c' : model.Client) (w w1 : World) :
  mf !! "csrf_token" = None \/ mf !! "csrf_token" = Some [] ->
  authService.getClient env (newCtxWithSesion req) w = (Ok c', w1) ->
  model.CSRFToken (model.Client_Session c') <> "" ->
  getMultipartFormValue mf "csrf_token" = "" /\
  authService.PostTweet env s
    (newCtxWithSesionCSRF req (getMultipartFormValue mf "csrf_token"))
    client c content replyToID format visibility isNSFW files w
  = (("", Some ErrInvalidCSRFToken), w1).
Proof.
  intros Hmf Hget Hne.
  assert (Hval : getMultipartFormValue mf "csrf_token" = "").
  { unfold getMultipartFormValue. by destruct Hmf as [-> | ->]. }
  split; [exact Hval|]. rewrite Hval.
  unfold authService.PostTweet.
  change (authService.getClient env (newCtxWithSesionCSRF req "") w)
    with (authService.getClient env (newCtxWithSesion req) w).
  rewrite Hget. unfold authService.checkCSRF, newCtxWithSesionCSRF. simpl.
  destruct (model.CSRFToken (model.Client_Session c')); [done|reflexivity].
Qed.

Lemma post_without_csrf_field_witness :
  authService.PostTweet stub.env stub.content
    (newCtxWithSesionCSRF fixture.request (getMultipartFormValue ∅ "csrf_token"))
    (ResponseWriter 0) None "hello" "" "" "public" false [] fixture.world
  = (("", Some ErrInvalidCSRFToken),
     snd (authService.getClient stub.env (newCtxWithSesion fixture.request)
            fixture.world)).
Proof.
  refine (proj2 (post_without_csrf_field stub.env stub.content fixture.request ∅
                   (ResponseWriter 0) None "hello" "" "" "public" false []
                   _ fixture.world _ (or_introl eq_refl) eq_refl _)).
  vm_compute. discriminate.
Defined.

(** X6. A request without the session cookie, or with an empty one, is
    refused with [ErrInvalidSession] by every guarded operation of the
    gateway, mutating or page, before any repository is consulted: the
    world is left exactly as it was. *)
Theorem anonymous_request_refused (env : Env) (s : Service) (ps : PageService)
    (req : http.Request) (csrfToken : string) (client : Writer)
    (c : option model.Client) (m : Mutation) (p : Page) (w : World) :
  http.Cookie req "session_id" = None \/ http.Cookie req "session_id" = Some "" ->
  call (authService.NewAuthService env s) (newCtxWithSesionCSRF req csrfToken)
    client c m w = (refused m ErrInvalidSession, w) /\
  serve (authPages.NewAuthPages env ps) (newCtxWithSesion req) client c p w
    = (Some ErrInvalidSession, w) /\
  authService.GetUserToken env s (newCtxWithSesion req) "" c csrfToken w
    = (("", Some ErrInvalidSession), w).
Proof.
  intros Hcookie.
  assert (Hctx : ctx_session (newCtxWithSesion req) = None).
  { unfold newCtxWithSesion. by destruct Hcookie as [-> | ->]. }
  pose proof (getClient_no_session env _ w Hctx) as Hget.
  split; [|split].
  - rewrite call_NewAuthService.
    change (authService.getClient env (newCtxWithSesionCSRF req csrfToken) w)
      with (authService.getClient env (newCtxWithSesion req) w).
    by rewrite Hget.
  - by rewrite serve_NewAuthPages, Hget.
  - unfold authService.GetUserToken. by rewrite Hget.
Qed.

Lemma anonymous_request_refused_witness :
  call (authService.NewAuthService stub.env stub.content)
    (newCtxWithSesionCSRF stub.anonymous "") (ResponseWriter 0) None
    (MFollow "7") fixture.world
  = (RErr (Some ErrInvalidSession), fixture.world).
Proof.
  exact (proj1 (anonymous_request_refused stub.env stub.content fixture.pages
                  stub.anonymous "" (ResponseWriter 0) None (MFollow "7") PAbout
                  fixture.world (or_introl eq_refl))).
Defined.

(** ** What a resolved client is *)

(** X7. [getClient] succeeds exactly on a context whose session identifier
    is stored and whose session's instance is registered (and the medium
    answers): the client it returns holds the stored session, and its API
    client is configured with the registered application's URL and
    credentials and with the session's access token, empty or not. Its only
    effects are the two lookups. *)
Theorem getClient_success (env : Env) (ctx : context.Context) (w : World) :
  (forall c w1,
      authService.getClient env ctx w = (Ok c, w1) ->
      exists sid app,
        ctx_session ctx = Some sid /\
        sessions w !! sid = Some (model.Client_Session c) /\
        apps w !! model.InstanceDomain (model.Client_Session c) = Some app /\
        model.Client_Client c =
          mastodon.NewClient
            {| mastodon.Server := model.InstanceURL app;
               mastodon.ClientID := model.ClientID app;
               mastodon.ClientSecret := model.ClientSecret app;
               mastodon.AccessToken := model.AccessToken (model.Client_Session c) |} /\
        w1 = record (EvAppGet (model.InstanceDomain (model.Client_Session c)))
               (record (EvSessionGet sid) w)) /\
  (forall sid session app,
      (forall t ev, env_storageFault env t ev = None) ->
      ctx_session ctx = Some sid ->
      sessions w !! sid = Some session ->
      apps w !! model.InstanceDomain session = Some app ->
      exists c w1,
        authService.getClient env ctx w = (Ok c, w1) /\
        model.Client_Session c = session).
Proof.
  split.
  - intros c w1 Hget.
    destruct (ctx_session ctx) as [sid|] eqn:Hctx;
      [|by rewrite (getClient_no_session _ _ _ Hctx) in Hget].
    rewrite (getClient_session _ _ _ _ Hctx) in Hget.
    destruct (sessionRepo.Get env sid w) as [[session|e] w0] eqn:Hs; [|done].
    apply sessionRepo_Get_Ok in Hs as [Hs ->].
    destruct (appRepo.Get env _ _) as [[app|e] w2] eqn:Ha; [|done].
    apply appRepo_Get_Ok in Ha as [Ha ->]. simpl in Ha.
    injection Hget as <- <-. by exists sid, app.
  - intros sid session app Hfault Hctx Hs Ha.
    rewrite (getClient_session _ _ _ _ Hctx).
    unfold sessionRepo.Get, appRepo.Get. rewrite Hfault, Hs. simpl.
    rewrite Hfault, Ha. by eauto.
Qed.

Lemma getClient_success_witness :
  exists c w1,
    authService.getClient stub.env (newCtxWithSesion fixture.request) fixture.world
      = (Ok c, w1) /\
    model.Client_Session c = fixture.session.
Proof.
  exact (proj2 (getClient_success stub.env (newCtxWithSesion fixture.request)
                  fixture.world)
           "session-2" fixture.session stub.app
           (fun _ _ => eq_refl) eq_refl eq_refl eq_refl).
Defined.

(** ** The inner token exchange *)

(** X8. [service.GetUserToken] never writes to a repository, on any path,
    and makes at most one network call: nothing at all on an empty code, the
    session lookup alone when it fails, the two lookups when the registry
    lookup fails, and otherwise the two lookups followed by one POST of the
    token request to "/oauth/token" under the registered application's own
    URL, carrying that application's credentials and the code. It succeeds
    only on that last path. *)
Theorem service_GetUserToken_effects (env : Env) (svc : service.service)
    (ctx : context.Context) (sessionID : string) (c : option model.Client)
    (code : string) (w : World) :
  let r := service.GetUserToken env svc ctx sessionID c code w in
  sessions (snd r) = sessions w /\
  apps (snd r) = apps w /\
  exists evs,
    trace (snd r) = (trace w ++ evs)%list /\
    ((code = "" /\ evs = [] /\ fst r = ("", Some ErrInvalidArgument)) \/
     (code <> "" /\ evs = [EvSessionGet sessionID] /\
      exists e, fst r = ("", Some e)) \/
     (exists session e,
         code <> "" /\ sessions w !! sessionID = Some session /\
         evs = [EvSessionGet sessionID; EvAppGet (model.InstanceDomain session)] /\
         fst r = ("", Some e)) \/
     (exists session app,
         code <> "" /\ sessions w !! sessionID = Some session /\
         apps w !! model.InstanceDomain session = Some app /\
         evs = [EvSessionGet sessionID; EvAppGet (model.InstanceDomain session);
                EvHttpPost (model.InstanceURL app ++ "/oauth/token")
                  "application/json" (service.tokenPayload svc app code)])).
Proof.
  intros r. subst r. unfold service.GetUserToken.
  destruct code as [|a code]; simpl.
  { repeat split; try done. exists []. split; [by rewrite app_nil_r|]. by left. }
  pose proof (sessionRepo_Get_world env sessionID w) as Hw1.
  destruct (sessionRepo.Get env sessionID w) as [[session|e] w1] eqn:Hs;
    simpl in Hw1; subst w1.
  - apply sessionRepo_Get_Ok in Hs as [Hs _].
    pose proof (appRepo_Get_world env (model.InstanceDomain session)
                  (record (EvSessionGet sessionID) w)) as Hw2.
    destruct (appRepo.Get env _ _) as [[app|e] w2] eqn:Ha; simpl in Hw2; subst w2.
    + apply appRepo_Get_Ok in Ha as [Ha _]. simpl in Ha.
      destruct (env_http_Post _ _ _ _ _) as [body|e];
        [destruct (env_json_Decode env body) as [tok|e]|]; simpl;
        (repeat split; try done; eexists; split; [by rewrite <- !app_assoc|];
         do 3 right; by exists session, app).
    + simpl. repeat split; try done.
      eexists. split; [by rewrite <- !app_assoc|].
      right. right. left. exists session, e. done.
  - simpl. repeat split; try done.
    eexists. split; [done|]. right. left. repeat split; try done. by exists e.
Qed.

(** ** The token is not validated *)

Lemma session_eta (s : model.Session) :
  model.mkSession (model.ID s) (model.InstanceDomain s) (model.AccessToken s)
    (model.CSRFToken s) = s.
Proof. by destruct s. Qed.

(** X9. The token the remote instance answers is not validated. When the
    body of the answer decodes to the empty token (as a body without an
    access token does), the gateway's [GetUserToken] still succeeds and
    returns the empty token, and a session that had no access token is left
    exactly as it was: the Session Store and the registry are unchanged. *)
Theorem GetUserToken_empty_token (env : Env) (svc : service.service)
    (content : Service) (ctx : context.Context) (sessionID : string)
    (c : option model.Client) (sid code : string) (session : model.Session)
    (app : model.App) (w : World) :
  (forall t ev, env_storageFault env t ev = None) ->
  (forall t target payload, exists body,
      env_http_Post env t target "application/json" payload = Ok body /\
      env_json_Decode env body = Ok "") ->
  code <> "" ->
  ctx_session ctx = Some sid ->
  sessions w !! sid = Some session ->
  model.ID session = sid ->
  model.AccessToken session = "" ->
  apps w !! model.InstanceDomain session = Some app ->
  exists w',
    authService.GetUserToken env (service.NewService env svc content)
      ctx sessionID c code w = (("", None), w') /\
    sessions w' = sessions w /\
    apps w' = apps w.
Proof.
  intros Hfault Hpost Hcode Hctx Hs Hid Htok Ha.
  destruct (GetUserToken_accepts env svc content ctx sessionID c sid code ""
              session app w Hfault (fun t target payload _ => Hpost t target payload)
              Hcode Hctx Hs Hid Ha) as (w' & Hcall & Hs' & Ha').
  exists w'. split; [exact Hcall|]. split; [|exact Ha'].
  rewrite Hs', <- Htok, session_eta. by apply insert_id.
Qed.

Lemma GetUserToken_empty_token_witness :
  exists w',
    authService.GetUserToken fixture.env_tokenless
      (service.NewService fixture.env_tokenless stub.svc stub.content)
      (newCtxWithSesion stub.request) "" None "code-1" stub.signed_in
    = (("", None), w') /\
    sessions w' = sessions stub.signed_in.
Proof.
  destruct (GetUserToken_empty_token fixture.env_tokenless stub.svc stub.content
              (newCtxWithSesion stub.request) "" None "session-1" "code-1"
              stub.session stub.app stub.signed_in
              (fun _ _ => eq_refl) (fun _ _ _ => ex_intro _ _ (conj eq_refl eq_refl))
              ltac:(discriminate) eq_refl (lookup_singleton_eq _ _) eq_refl eq_refl
              (lookup_singleton_eq _ _))
    as (w' & Hcall & Hs & _).
  exists w'. split; [exact Hcall | exact Hs].
Defined.

(** ** The effects of [GetAuthUrl] *)

(** X10. Whatever the instance is (no input is rejected, the empty one
    included) and whatever fails, [GetAuthUrl] first draws a session id and
    writes the session, for the normalized instance and with empty tokens.
    The effects that follow are an initial part of: look up the registry
    under the normalized instance, register with the remote instance, write
    the application it answered. The session id drawn is returned on every
    path, with or without an error. *)
Theorem GetAuthUrl_effect_order (env : Env) (svc : service.service)
    (ctx : context.Context) (instance : string) (w : World) :
  let r := service.GetAuthUrl env svc ctx instance w in
  let n := service.normalize instance in
  let sessionID := env_NewSessionId env (now w) in
  let session := model.mkSession sessionID n "" "" in
  let cfg := service.appConfig svc n in
  snd (fst (fst r)) = sessionID /\
  exists evs,
    trace (snd r) = (trace w ++ EvNewSessionId :: EvSessionAdd session :: evs)%list /\
    (evs = [] \/
     evs = [EvAppGet n] \/
     evs = [EvAppGet n; EvRegisterApp cfg] \/
     exists mastoApp,
       evs = [EvAppGet n; EvRegisterApp cfg;
              EvAppAdd (model.mkApp n (mastodon.application_ClientID mastoApp)
                          (mastodon.application_ClientSecret mastoApp))]).
Proof.
  unfold_signin. simpl.
  repeat case_match; simplify_eq/=; rewrite <- ?app_assoc; simpl;
    (split; [done|]; eexists; split; [reflexivity|]; by eauto 6).
Qed.

(** X11. Frame of [GetAuthUrl]. On every path the Session Store afterwards
    is either the store before or the store before with the new session
    under the drawn id; the registry is either the registry before or,
    when the instance was not registered and registration succeeded, the
    registry before with the new application under the normalized instance.
    An application that is already registered is never replaced. *)
Theorem GetAuthUrl_frame (env : Env) (svc : service.service)
    (ctx : context.Context) (instance : string) (w : World) :
  let w' := snd (service.GetAuthUrl env svc ctx instance w) in
  let n := service.normalize instance in
  let sessionID := env_NewSessionId env (now w) in
  (sessions w' = sessions w \/
   sessions w' = <[sessionID := model.mkSession sessionID n "" ""]> (sessions w)) /\
  (apps w' = apps w \/
   exists mastoApp,
     apps w !! n = None /\
     apps w' = <[n := model.mkApp n (mastodon.application_ClientID mastoApp)
                        (mastodon.application_ClientSecret mastoApp)]> (apps w)) /\
  (forall key, key <> sessionID -> sessions w' !! key = sessions w !! key) /\
  (forall key, key <> n -> apps w' !! key = apps w !! key).
Proof.
  unfold_signin. simpl.
  repeat case_match; simplify_eq/=;
    (split; [by eauto|]; split; [by eauto|];
     split; intros key Hkey; by rewrite ?lookup_insert_ne).
Qed.

(** ** Between the two halves of sign-in *)

(** X12. After a successful [GetAuthUrl] the new session is resolvable
    although it has no access token yet: with a working medium and a
    non-empty session id, [getClient] on a request carrying the returned id
    as its cookie succeeds, and the client holds the new session, an empty
    access token, and the credentials of the application registered for the
    normalized instance. *)
Theorem GetAuthUrl_then_getClient (env : Env) (svc : service.service)
    (ctx : context.Context) (instance : string) (w w1 : World)
    (redirectUrl sessionID : string) (req : http.Request) :
  service.GetAuthUrl env svc ctx instance w = ((redirectUrl, sessionID, None), w1) ->
  (forall t ev, env_storageFault env t ev = None) ->
  sessionID <> "" ->
  http.Cookie req "session_id" = Some sessionID ->
  exists c w2 app,
    authService.getClient env (newCtxWithSesion req) w1 = (Ok c, w2) /\
    model.Client_Session c
      = model.mkSession sessionID (service.normalize instance) "" "" /\
    apps w1 !! service.normalize instance = Some app /\
    model.Client_Client c =
      mastodon.NewClient
        {| mastodon.Server := model.InstanceURL app;
           mastodon.ClientID := model.ClientID app;
           mastodon.ClientSecret := model.ClientSecret app;
           mastodon.AccessToken := "" |}.
Proof.
  intros (_ & Hs & app & Ha & _)%GetAuthUrl_success Hfault Hne Hcookie.
  pose proof (ctx_session_cookie req sessionID Hcookie Hne) as Hctx.
  rewrite (getClient_session _ _ _ _ Hctx).
  unfold sessionRepo.Get, appRepo.Get.
  rewrite Hfault. simpl. rewrite Hs, lookup_insert_eq. simpl.
  rewrite Hfault. simpl. rewrite Ha. by eauto 7.
Qed.

Lemma GetAuthUrl_then_getClient_witness :
  exists c w2 app,
    authService.getClient stub.env (newCtxWithSesion stub.request)
      (snd (service.GetAuthUrl stub.env stub.svc context.Background "example.com"
              stub.empty)) = (Ok c, w2) /\
    model.Client_Session c = stub.session /\
    apps (snd (service.GetAuthUrl stub.env stub.svc context.Background "example.com"
                 stub.empty)) !! "https://example.com" = Some app.
Proof.
  destruct (GetAuthUrl_then_getClient stub.env stub.svc context.Background
              "example.com" stub.empty _ _ "session-1" stub.request eq_refl
              (fun _ _ => eq_refl) ltac:(discriminate) eq_refl)
    as (c & w2 & app & Hget & Hs & Ha & _).
  exists c, w2, app. split; [exact Hget|]. split; [exact Hs | exact Ha].
Defined.

(** X13. The session [GetAuthUrl] creates has an empty CSRF token, so the
    guard of the mutating operations does not protect it: after a
    successful [GetAuthUrl], a mutating request that carries the new
    session's cookie and an empty CSRF token (what the handlers read from a
    form without one) passes the guard and reaches the inner service. *)
Theorem fresh_session_unprotected (env : Env) (svc : service.service) (s : Service)
    (ctx : context.Context) (instance : string) (w w1 : World)
    (redirectUrl sessionID : string) (req : http.Request) (client : Writer)
    (c0 : option model.Client) (m : Mutation) :
  service.GetAuthUrl env svc ctx instance w = ((redirectUrl, sessionID, None), w1) ->
  (forall t ev, env_storageFault env t ev = None) ->
  sessionID <> "" ->
  http.Cookie req "session_id" = Some sessionID ->
  http.Form req !! "csrf_token" = None ->
  exists c w2,
    authService.getClient env (newCtxWithSesion req) w1 = (Ok c, w2) /\
    call (authService.NewAuthService env s)
      (newCtxWithSesionCSRF req (http.FormValue req "csrf_token")) client c0 m w1
    = call s (newCtxWithSesionCSRF req "") client (Some c) m w2.
Proof.
  intros (_ & Hs & app & Ha & _)%GetAuthUrl_success Hfault Hne Hcookie Hform.
  pose proof (ctx_session_cookie req sessionID Hcookie Hne) as Hctx.
  assert (Hget : exists c w2,
             authService.getClient env (newCtxWithSesion req) w1 = (Ok c, w2) /\
             model.CSRFToken (model.Client_Session c) = "").
  { rewrite (getClient_session _ _ _ _ Hctx).
    unfold sessionRepo.Get, appRepo.Get.
    rewrite Hfault. simpl. rewrite Hs, lookup_insert_eq. simpl.
    rewrite Hfault. simpl. rewrite Ha. by eauto. }
  destruct Hget as (c & w2 & Hget & Hcsrf).
  exists c, w2. split; [exact Hget|].
  rewrite call_NewAuthService.
  unfold http.FormValue. rewrite Hform. simpl.
  change (authService.getClient env (newCtxWithSesionCSRF req "") w1)
    with (authService.getClient env (newCtxWithSesion req) w1).
  rewrite Hget. unfold authService.checkCSRF, newCtxWithSesionCSRF. simpl.
  by rewrite Hcsrf.
Qed.

Lemma fresh_session_unprotected_witness :
  exists c w2,
    authService.getClient stub.env (newCtxWithSesion stub.request)
      (snd (service.GetAuthUrl stub.env stub.svc context.Background "example.com"
              stub.empty)) = (Ok c, w2) /\
    call (authService.NewAuthService stub.env stub.content)
      (newCtxWithSesionCSRF stub.request (http.FormValue stub.request "csrf_token"))
      (ResponseWriter 0) None (MLike "42")
      (snd (service.GetAuthUrl stub.env stub.svc context.Background "example.com"
              stub.empty))
    = call stub.content (newCtxWithSesionCSRF stub.request "") (ResponseWriter 0)
        (Some c) (MLike "42") w2.
Proof.
  exact (fresh_session_unprotected stub.env stub.svc stub.content context.Background
           "example.com" stub.empty _ _ "session-1" stub.request (ResponseWriter 0)
           None (MLike "42") eq_refl (fun _ _ => eq_refl) ltac:(discriminate)
           eq_refl (lookup_empty "csrf_token")).
Defined.

(** X14. The credentials round trip. When an unregistered instance answers
    the registration with a client id and secret, the token request that the
    following [GetUserToken] posts goes to "/oauth/token" under the
    normalized instance and carries exactly that id and secret, the code,
    and the redirect URI that was registered; it is the only network call
    of [GetUserToken], made after the lookups and before the session is
    written back. *)
Theorem token_request_uses_registration (env : Env) (svc : service.service)
    (content : Service) (ctx : context.Context) (instance code : string)
    (mastoApp : mastodon.Application) (w : World) (req : http.Request) :
  let n := service.normalize instance in
  let sessionID := env_NewSessionId env (now w) in
  let cfg := service.appConfig svc n in
  (forall t ev, env_storageFault env t ev = None) ->
  apps w !! n = None ->
  (forall t, env_RegisterApp env t cfg = Ok mastoApp) ->
  (exists u, env_url_Parse env (env_path_Join env n "/oauth/authorize") = Ok u) ->
  sessionID <> "" ->
  code <> "" ->
  http.Cookie req "session_id" = Some sessionID ->
  exists redirectUrl w1,
    service.GetAuthUrl env svc ctx instance w = ((redirectUrl, sessionID, None), w1) /\
    exists evs,
      trace (snd (authService.GetUserToken env (service.NewService env svc content)
                    (newCtxWithSesion req) "" None code w1))
      = (trace w1 ++
         [EvSessionGet sessionID; EvAppGet n; EvSessionGet sessionID; EvAppGet n;
          EvHttpPost (n ++ "/oauth/token") "application/json"
            [("client_id", mastodon.application_ClientID mastoApp);
             ("client_secret", mastodon.application_ClientSecret mastoApp);
             ("grant_type", "authorization_code");
             ("code", code);
             ("redirect_uri", mastodon.app_RedirectURIs cfg)]] ++ evs)%list /\
      Forall (fun ev => ~ is_network ev) evs.
Proof.
  intros n sessionID cfg Hfault Hnone Hreg [u Hu] Hne Hcode Hcookie.
  assert (Hurl : exists redirectUrl w1,
             service.GetAuthUrl env svc ctx instance w
             = ((redirectUrl, sessionID, None), w1) /\
             sessions w1 !! sessionID = Some (model.mkSession sessionID n "" "") /\
             apps w1 !! n
             = Some (model.mkApp n (mastodon.application_ClientID mastoApp)
                       (mastodon.application_ClientSecret mastoApp))).
  { unfold_signin. simpl. fold n. rewrite Hfault. simpl. rewrite Hfault, Hnone. simpl.
    destruct (decide (ErrAppNotFound <> ErrAppNotFound)); [done|].
    fold cfg. rewrite Hreg, Hfault. simpl.
    unfold service.authorizeUrl. rewrite Hu.
    eexists _, _. split; [reflexivity|]. simpl. by rewrite !lookup_insert_eq. }
  destruct Hurl as (redirectUrl & w1 & Hcall & Hs & Ha).
  exists redirectUrl, w1. split; [exact Hcall|].
  pose proof (ctx_session_cookie req sessionID Hcookie Hne) as Hctx.
  apply code_not_empty in Hcode.
  unfold authService.GetUserToken. rewrite (getClient_session _ _ _ _ Hctx).
  unfold sessionRepo.Get, appRepo.Get, record, now. simpl.
  rewrite Hfault, Hs. simpl. rewrite Hfault, Ha. simpl.
  unfold service.GetUserToken, sessionRepo.Get, appRepo.Get, sessionRepo.Add,
    record, now. simpl.
  rewrite Hcode, Hfault, Hs. simpl. rewrite Hfault, Ha. simpl.
  destruct (env_http_Post _ _ _ _ _) as [body|e];
    [destruct (env_json_Decode env body) as [tok|e]|]; simpl;
    rewrite ?Hfault; simpl; rewrite <- ?app_assoc; simpl;
    (eexists; split; [reflexivity|]; repeat constructor; by intros []).
Qed.

Lemma token_request_uses_registration_witness :
  exists redirectUrl w1,
    service.GetAuthUrl stub.env stub.svc context.Background "example.com" stub.empty
    = ((redirectUrl, "session-1", None), w1) /\
    exists evs,
      trace (snd (authService.GetUserToken stub.env
                    (service.NewService stub.env stub.svc stub.content)
                    (newCtxWithSesion stub.request) "" None "code-1" w1))
      = (trace w1 ++
         [EvSessionGet "session-1"; EvAppGet "https://example.com";
          EvSessionGet "session-1"; EvAppGet "https://example.com";
          EvHttpPost "https://example.com/oauth/token" "application/json"
            [("client_id", "client-id");
             ("client_secret", "client-secret");
             ("grant_type", "authorization_code");
             ("code", "code-1");
             ("redirect_uri", "https://bloat.example/oauth_callback")]] ++ evs)%list /\
      Forall (fun ev => ~ is_network ev) evs.
Proof.
  exact (token_request_uses_registration stub.env stub.svc stub.content
           context.Background "example.com" "code-1"
           (mastodon.mkApplication "client-id" "client-secret") stub.empty
           stub.request (fun _ _ => eq_refl) (lookup_empty _) (fun _ => eq_refl)
           (ex_intro _ _ eq_refl) ltac:(discriminate) ltac:(discriminate) eq_refl).
Defined.

(** ** Strings *)

Lemma append_assoc (a b c : string) : (a ++ b) ++ c = a ++ (b ++ c).
Proof.
  induction a as [|x a IH]; [done|].
  change (String x ((a ++ b) ++ c) = String x (a ++ b ++ c)). by f_equal.
Qed.

Lemma length_append (a b : string) :
  String.length (a ++ b) = (String.length a + String.length b)%nat.
Proof.
  induction a as [|x a IH]; [done|].
  change (S (String.length (a ++ b)) = S (String.length a + String.length b)).
  by f_equal.
Qed.

Lemma append_nil_r (a : string) : a ++ "" = a.
Proof.
  induction a as [|x a IH]; [done|].
  change (String x (a ++ "") = String x a). by f_equal.
Qed.

(** X15. [normalize] always yields a string that begins with "https://"; it
    leaves exactly the strings that already begin with it unchanged, and
    prefixes every other one, a domain with another scheme or the empty
    string included. Normalizing twice is normalizing once. *)
Theorem normalize_https (instance : string) :
  HasPrefix (service.normalize instance) "https://" = true /\
  (service.normalize instance = instance <-> HasPrefix instance "https://" = true) /\
  (HasPrefix instance "https://" = false ->
   service.normalize instance = "https://" ++ instance) /\
  service.normalize (service.normalize instance) = service.normalize instance.
Proof.
  unfold service.normalize at 1 2 3.
  destruct (HasPrefix instance "https://") eqn:E; simpl.
  - repeat split; try done. apply normalize_idempotent.
  - split; [apply HasPrefix_https|]. split; [|split; [done|]].
    + split; [|done]. intros H. apply (f_equal String.length) in H.
      rewrite length_append in H. simpl in H. lia.
    + apply normalize_idempotent.
Qed.

(** ** The handlers *)

(** X16. [GET /] always answers 302 with one Location header. It sends the
    browser to the timeline exactly when the request carries a session
    identifier in the sense of [getClient] (a non-empty session cookie), and
    to the sign-in page otherwise; no repository is consulted, so a cookie
    that names no stored session is sent to the timeline as well. *)
Theorem rootPage_redirect (req : http.Request) :
  handler.Status (handler.rootPage req) = Some 302%nat /\
  (handler.Header (handler.rootPage req) = [("Location", "/timeline/home")] <->
   ctx_session (newCtxWithSesion req) <> None) /\
  (handler.Header (handler.rootPage req) = [("Location", "/signin")] <->
   ctx_session (newCtxWithSesion req) = None).
Proof.
  unfold handler.rootPage, newCtxWithSesion, http.Cookie, ctx_session.
  destruct (http.Cookies req !! "session_id") as [[|a v]|]; simpl;
    repeat split; try done.
Qed.

(** X17. [POST /signin] over the assembled service. When [GetAuthUrl]
    succeeds the answer is a 302 to the authorization URL with one
    Set-Cookie header, "session_id=<id>;max-age=31536000", whose id is the
    one under which the new session is now stored, for the normalized form
    of the "instance" form value. When it fails the response gets no cookie,
    no Location and no status: only the error page is served. *)
Theorem signin_sets_cookie (env : Env) (svc : service.service) (content : Service)
    (p : PageService) (client : Writer) (req : http.Request) (w : World) :
  let instance := http.FormValue req "instance" in
  match service.GetAuthUrl env svc context.Background instance w with
  | ((url, sessionID, None), w1) =>
      handler.signin (authService.NewAuthService env
                        (service.NewService env svc content)) p client req w
      = ({| handler.Header :=
              [("Set-Cookie", "session_id=" ++ sessionID ++ ";max-age=31536000");
               ("Location", url)];
            handler.Status := Some 302%nat |}, w1) /\
      sessions w1 !! sessionID
      = Some (model.mkSession sessionID (service.normalize instance) "" "")
  | ((_, _, Some err), w1) =>
      handler.signin (authService.NewAuthService env
                        (service.NewService env svc content)) p client req w
      = (handler.fresh,
         pServeErrorPage p context.Background client None err w1)
  end.
Proof.
  intros instance. unfold handler.signin. simpl.
  unfold authService.GetAuthUrl. simpl. fold instance.
  destruct (service.GetAuthUrl env svc context.Background instance w)
    as [[[url sessionID] [err|]] w1] eqn:Hcall; [done|].
  split; [done|].
  apply GetAuthUrl_success in Hcall as (_ & -> & _). apply lookup_insert_eq.
Qed.

(** X18. [GET /oauth_callback] without a code (no "code" in the query, or
    an empty one) never completes a sign-in: the response gets no redirect
    and no status, the error page is served, and the Session Store and the
    registry are as before. The error shown is [ErrInvalidArgument] when the
    session resolves and the resolution error when it does not. *)
Theorem oauthCallback_without_code (env : Env) (svc : service.service)
    (content : Service) (p : PageService) (client : Writer) (req : http.Request)
    (query : gmap string string) (w : World) :
  query !! "code" = None \/ query !! "code" = Some "" ->
  exists err w1,
    handler.oauthCallback (authService.NewAuthService env
                             (service.NewService env svc content))
      p client req query w
    = (handler.fresh, pServeErrorPage p (newCtxWithSesion req) client None err w1) /\
    sessions w1 = sessions w /\
    apps w1 = apps w /\
    match fst (authService.getClient env (newCtxWithSesion req) w) with
    | Ok _ => err = ErrInvalidArgument
    | Err e => err = e
    end.
Proof.
  intros Hq.
  assert (Hcode : default "" (query !! "code") = "") by (by destruct Hq as [-> | ->]).
  unfold handler.oauthCallback. rewrite Hcode. simpl.
  unfold authService.GetUserToken.
  pose proof (getClient_reads_only env (newCtxWithSesion req) w) as (Hs & Ha & _).
  destruct (authService.getClient env (newCtxWithSesion req) w) as [[c|e] w1];
    unfold service.GetUserToken; simpl in *; by eexists _, _.
Qed.

Lemma oauthCallback_without_code_witness :
  exists err w1,
    handler.oauthCallback (authService.NewAuthService stub.env
                             (service.NewService stub.env stub.svc stub.content))
      fixture.pages (ResponseWriter 0) fixture.request ∅ fixture.world
    = (handler.fresh, w1) /\
    err = ErrInvalidArgument /\
    sessions w1 = sessions fixture.world.
Proof.
  destruct (oauthCallback_without_code stub.env stub.svc stub.content fixture.pages
              (ResponseWriter 0) fixture.request ∅ fixture.world
              (or_introl (lookup_empty "code")))
    as (err & w1 & Hcall & Hs & _ & Herr).
  exists err, w1. split; [exact Hcall|]. split; [exact Herr | exact Hs].
Defined.

(** ** The text a reply starts with *)

Lemma fold_left_append (mentions : list string) (content : string) :
  fold_left (fun content m => content ++ m ++ " ") mentions content
  = content ++ foldr (fun m rest => m ++ " " ++ rest) "" mentions.
Proof.
  revert content. induction mentions as [|m mentions IH]; intros content; simpl.
  - by rewrite append_nil_r.
  - by rewrite IH, !append_assoc.
Qed.

(** X19. The text the thread page offers for a reply is empty when no reply
    is asked for; otherwise it is the account of the status followed by the
    mentioned accounts, in their order and with repetitions, each followed
    by one space, so that its length is the sum of their lengths plus their
    number. *)
Theorem replyContent_spec (reply : bool) (acct : string) (mentions : list string) :
  replyContent false acct mentions = "" /\
  replyContent true acct mentions
    = foldr (fun m rest => m ++ " " ++ rest) "" (acct :: mentions) /\
  String.length (replyContent true acct mentions)
    = (foldr (fun m n => String.length m + 1 + n) 0 (acct :: mentions))%nat.
Proof.
  split; [reflexivity|].
  assert (H : replyContent true acct mentions
              = foldr (fun m rest => m ++ " " ++ rest) "" (acct :: mentions)).
  { unfold replyContent. rewrite fold_left_append. simpl. by rewrite !append_assoc. }
  split; [exact H|]. rewrite H. clear H.
  induction (acct :: mentions) as [|m l IH]; simpl; [done|].
  rewrite !length_append, IH. simpl. lia.
Qed.

(** ** Decimal numerals *)

Lemma length_string_of_uint (d : uint) :
  String.length (NilEmpty.string_of_uint d) = nb_digits d.
Proof. induction d; simpl; by f_equal. Qed.

Lemma single_digit_below_10 (d : uint) : (nb_digits d <= 1)%nat -> (N.of_uint d < 10)%N.
Proof.
  destruct d as [|d|d|d|d|d|d|d|d|d|d]; simpl; intros H; try done;
    (destruct d; simpl in H; [vm_compute; done | lia..]).
Qed.

Lemma length_decimal (n : N) :
  (1 <? String.length (decimal n))%nat = negb (n <? 10)%N.
Proof.
  unfold decimal. rewrite length_string_of_uint.
  destruct (n <? 10)%N eqn:E; simpl.
  - apply N.ltb_lt in E. apply Nat.ltb_ge.
    rewrite <- (N2Nat.id n).
    assert (Hk : (N.to_nat n < 10)%nat) by lia.
    generalize dependent (N.to_nat n). intros k Hk.
    do 10 (destruct k as [|k]; [vm_compute; lia|]). lia.
  - apply N.ltb_ge in E. apply Nat.ltb_lt.
    destruct (decide (nb_digits (N.to_uint n) <= 1)%nat) as [H|H]; [|lia].
    apply single_digit_below_10 in H. rewrite Unsigned.of_to in H. lia.
Qed.

Lemma Atoi_decimal (n : N) :
  (n < 2 ^ 63)%N -> Atoi (decimal n) = Ok (Z.of_N n).
Proof.
  intros Hn. unfold Atoi, decimal.
  pose proof (NilEmpty.usu (N.to_uint n)) as Hs.
  pose proof (Unsigned.of_to n) as Hof.
  assert (Hsplit :
    match NilEmpty.string_of_uint (N.to_uint n) with
    | String c rest =>
        if Ascii.eqb c "+" then (false, rest)
        else if Ascii.eqb c "-" then (true, rest)
        else (false, NilEmpty.string_of_uint (N.to_uint n))
    | EmptyString => (false, NilEmpty.string_of_uint (N.to_uint n))
    end = (false, NilEmpty.string_of_uint (N.to_uint n))).
  { by destruct (N.to_uint n). }
  rewrite Hsplit.
  destruct (NilEmpty.string_of_uint (N.to_uint n)) as [|c rest] eqn:Hstr.
  - exfalso. destruct (N.to_uint n) eqn:Hd; try done.
    vm_compute in Hof. subst n. by vm_compute in Hd.
  - rewrite Hs, Hof.
    assert (Hrange : ((Z.of_N n <? - 2 ^ 63) || (2 ^ 63 - 1 <? Z.of_N n))%Z = false).
    { apply orb_false_iff. split; [apply Z.ltb_ge | apply Z.ltb_ge]; lia. }
    by rewrite Hrange.
Qed.

(** ** The offset of a search *)

(** X20. The search handlers parse the "offset" query value only when it
    has more than one character. Whatever [strconv.Atoi] does, a value of
    at most one character gives offset 0 and no error, a digit included;
    so, [Atoi] reading decimal numerals as Go's does, the offset handed to
    the service for the numeral of [n] is 0 for [n] below 10 and [n] from
    10 on. *)
Theorem searchOffset_decimal (parse : string -> result Z) :
  (forall n, (n < 2 ^ 63)%N -> parse (decimal n) = Ok (Z.of_N n)) ->
  (forall offsetStr,
      (String.length offsetStr <= 1)%nat -> searchOffset parse offsetStr = Ok 0%Z) /\
  (forall n, (n < 2 ^ 63)%N ->
             searchOffset parse (decimal n)
             = Ok (if (n <? 10)%N then 0%Z else Z.of_N n)).
Proof.
  intros Hparse. split.
  - intros offsetStr Hlen. unfold searchOffset.
    destruct (1 <? String.length offsetStr)%nat eqn:E; [|done].
    apply Nat.ltb_lt in E. lia.
  - intros n Hn. unfold searchOffset. rewrite length_decimal.
    destruct (n <? 10)%N; simpl; [done|]. by rewrite (Hparse n Hn).
Qed.

Lemma searchOffset_decimal_witness :
  searchOffset Atoi (decimal 5) = Ok 0%Z /\
  searchOffset Atoi (decimal 40) = Ok 40%Z.
Proof.
  pose proof (proj2 (searchOffset_decimal Atoi Atoi_decimal)) as H.
  split; [exact (H 5%N eq_refl) | exact (H 40%N eq_refl)].
Defined.

(** ** The repositories stay keyed *)

Lemma getClient_stores (env : Env) (ctx : context.Context) (w : World) :
  sessions (snd (authService.getClient env ctx w)) = sessions w /\
  apps (snd (authService.getClient env ctx w)) = apps w.
Proof. by destruct (getClient_reads_only env ctx w) as (? & ? & _). Qed.

Lemma GetAuthUrl_frame_apps (env : Env) (svc : service.service)
    (ctx : context.Context) (instance : string) (w : World) :
  apps (snd (service.GetAuthUrl env svc ctx instance w)) = apps w \/
  exists a, apps (snd (service.GetAuthUrl env svc ctx instance w))
            = <[model.InstanceURL a := a]> (apps w).
Proof.
  unfold_signin. simpl.
  repeat case_match; simplify_eq/=; try (by left).
  all: right; by eexists (model.mkApp _ _ _).
Qed.

(** X21. Sign-in keeps both repositories keyed. If every session is stored
    under its own id and every application under its own instance URL, the
    same holds after [GetAuthUrl] and after the gateway's [GetUserToken], on
    every path, failures included. *)
Theorem signin_keeps_keyed (env : Env) (svc : service.service) (content : Service)
    (ctx ctx' : context.Context) (instance sessionID code : string)
    (c : option model.Client) (w : World) :
  keyed (sessions w) ->
  registry_keyed (apps w) ->
  let w1 := snd (service.GetAuthUrl env svc ctx instance w) in
  let w2 := snd (authService.GetUserToken env (service.NewService env svc content)
                   ctx' sessionID c code w) in
  keyed (sessions w1) /\ registry_keyed (apps w1) /\
  keyed (sessions w2) /\ registry_keyed (apps w2).
Proof.
  intros Hs Ha w1 w2. split; [by apply GetAuthUrl_keyed|]. split.
  - subst w1. destruct (GetAuthUrl_frame_apps env svc ctx instance w) as [-> | (a & ->)];
      [done|].
    intros key a'. rewrite lookup_insert. case_decide.
    + by intros [= <-].
    + apply Ha.
  - subst w2. unfold authService.GetUserToken.
    pose proof (getClient_stores env ctx' w) as [Hs1 Ha1].
    destruct (authService.getClient env ctx' w) as [[cl|e] w0]; simpl in Hs1, Ha1;
      [|simpl; by rewrite Hs1, Ha1].
    cbn [iGetUserToken service.NewService].
    match goal with
    | |- context [service.GetUserToken env svc ctx' ?i ?cl0 code w0] =>
        pose proof (service_GetUserToken_stores env svc ctx' i cl0 code w0) as [Hs2 Ha2];
        destruct (service.GetUserToken env svc ctx' i cl0 code w0) as [[tok [e|]] w3]
    end; simpl in Hs2, Ha2; [simpl; by rewrite Hs2, Ha2, Hs1, Ha1|].
    pose proof (sessionRepo_Add_keyed env
                  (model.Client_Session (model.set_AccessToken cl tok)) w3) as Hk.
    assert (Happs : apps (snd (sessionRepo.Add env
                     (model.Client_Session (model.set_AccessToken cl tok)) w3))
                    = apps w3).
    { unfold sessionRepo.Add. by destruct (env_storageFault _ _ _). }
    destruct (sessionRepo.Add env _ w3) as [[e|] w4]; simpl in Hk, Happs;
      (simpl; split; [apply Hk; by rewrite Hs2, Hs1 | by rewrite Happs, Ha2, Ha1]).
Qed.

Lemma signin_keeps_keyed_witness :
  keyed (sessions (snd (service.GetAuthUrl stub.env stub.svc context.Background
                          "sub.example.org" stub.signed_in))) /\
  registry_keyed (apps (snd (service.GetAuthUrl stub.env stub.svc context.Background
                               "sub.example.org" stub.signed_in))).
Proof.
  assert (Hs : keyed (sessions stub.signed_in)).
  { intros key s H. cbn [stub.signed_in sessions] in H.
    apply lookup_singleton_Some in H as [<- <-]. reflexivity. }
  assert (Ha : registry_keyed (apps stub.signed_in)).
  { intros key a H. cbn [stub.signed_in apps] in H.
    apply lookup_singleton_Some in H as [<- <-]. reflexivity. }
  destruct (signin_keeps_keyed stub.env stub.svc stub.content context.Background
              (newCtxWithSesion stub.request) "sub.example.org" "" "code-1" None
              stub.signed_in Hs Ha) as (H1 & H2 & _).
  split; [exact H1 | exact H2].
Defined.

(** ** The session write and the authorization URL *)

(** X22. [GetAuthUrl] does not look whether the id it draws is in use. If
    the medium accepts the session write, the store afterwards holds the new
    session under the drawn id on every path, also when the call then fails,
    and a session that was stored under that id before is replaced, its
    access token lost. If the medium refuses the write, the call returns
    that storage error at once: the store is unchanged and neither the
    registry nor the remote instance is consulted. *)
Theorem GetAuthUrl_session_write (env : Env) (svc : service.service)
    (ctx : context.Context) (instance : string) (w : World) :
  let r := service.GetAuthUrl env svc ctx instance w in
  let sessionID := env_NewSessionId env (now w) in
  let session := model.mkSession sessionID (service.normalize instance) "" "" in
  match env_storageFault env (now (snd (NewSessionId env w))) (EvSessionAdd session) with
  | None =>
      sessions (snd r) = <[sessionID := session]> (sessions w) /\
      sessions (snd r) !! sessionID = Some session
  | Some msg =>
      fst r = ("", sessionID, Some (ErrStorage msg)) /\
      sessions (snd r) = sessions w /\
      apps (snd r) = apps w /\
      trace (snd r) = (trace w ++ [EvNewSessionId; EvSessionAdd session])%list
  end.
Proof.
  unfold_signin. simpl.
  destruct (env_storageFault env _ (EvSessionAdd _)) as [msg|]; simpl.
  - repeat split; try done. by rewrite <- app_assoc.
  - repeat case_match; simplify_eq/=; (split; [done | apply lookup_insert_eq]).
Qed.

Lemma GetAuthUrl_found (env : Env) (svc : service.service)
    (ctx : context.Context) (instance : string) (w w' : World) (a : model.App)
    (redirectUrl sessionID : string) :
  apps w !! service.normalize instance = Some a ->
  service.GetAuthUrl env svc ctx instance w = ((redirectUrl, sessionID, None), w') ->
  service.authorizeUrl env svc (service.normalize instance) a = Ok redirectUrl.
Proof.
  intros Ha. unfold_signin. simpl. intros H.
  repeat case_match; simplify_eq/=; done.
Qed.

(** X23. The authorization URL carries nothing of the session. Two
    successful calls of [GetAuthUrl] for the same instance, one after the
    other, return the same URL although they create two sessions; the second
    call registers nothing and leaves the registry as the first left it. *)
Theorem GetAuthUrl_same_url (env : Env) (svc : service.service)
    (ctx ctx' : context.Context) (instance : string) (w w1 w2 : World)
    (url1 url2 sessionID1 sessionID2 : string) :
  service.GetAuthUrl env svc ctx instance w = ((url1, sessionID1, None), w1) ->
  service.GetAuthUrl env svc ctx' instance w1 = ((url2, sessionID2, None), w2) ->
  url2 = url1 /\
  apps w2 = apps w1 /\
  exists evs, trace w2 = (trace w1 ++ evs)%list /\
              Forall (fun ev => ~ is_registration ev) evs.
Proof.
  intros (_ & _ & app & Ha & Hurl1)%GetAuthUrl_success Hcall2.
  pose proof (GetAuthUrl_found _ _ _ _ _ _ _ _ _ Ha Hcall2) as Hurl2.
  pose proof (GetAuthUrl_registered env svc ctx' instance w1 app Ha) as [Happs Hevs].
  rewrite Hcall2 in Happs, Hevs. simpl in Happs, Hevs.
  split; [congruence|]. by split.
Qed.

Lemma GetAuthUrl_same_url_witness :
  exists url w1 w2,
    service.GetAuthUrl stub.env stub.svc context.Background "example.com" stub.empty
    = ((url, "session-1", None), w1) /\
    service.GetAuthUrl stub.env stub.svc context.Background "example.com" w1
    = ((url, "session-1", None), w2) /\
    apps w2 = apps w1.
Proof.
  eexists _, _, _. split; [reflexivity|]. split; [reflexivity|].
  exact (proj1 (proj2 (GetAuthUrl_same_url stub.env stub.svc context.Background
                         context.Background "example.com" stub.empty _ _ _ _ _ _
                         eq_refl eq_refl))).
Defined.

(** ** The path of the authorization URL *)

Lemma elements_no_slash (p : string) : Forall (fun e => no_slash e = true) (path.elements p).
Proof.
  induction p as [|c p IH]; simpl; [by repeat constructor|].
  destruct (Ascii.eqb c path.slash) eqn:E; [by constructor|].
  destruct (path.elements p) as [|e es]; [by repeat constructor; simpl; rewrite E|].
  inversion IH; subst. constructor; [|done]. simpl. by rewrite E.
Qed.

Lemma step_elements (rooted : bool) (out : list string) (e : string) :
  no_slash e = true -> Forall element out -> Forall element (path.step rooted out e).
Proof.
  intros He Hout. unfold path.step.
  destruct (String.eqb e "") eqn:E1; [done|].
  destruct (String.eqb e ".") eqn:E2; [done|].
  destruct (String.eqb e "..") eqn:E3.
  - destruct out as [|top below].
    + destruct rooted; [done|]. by repeat constructor.
    + destruct (negb rooted && String.eqb top ".."); [|by inversion Hout].
      constructor; [|done]. by split.
  - constructor; [|done]. split; [|done]. intros ->. by rewrite String.eqb_refl in E1.
Qed.

Lemma fold_step_elements (rooted : bool) (es out : list string) :
  Forall (fun e => no_slash e = true) es -> Forall element out ->
  Forall element (fold_left (path.step rooted) es out).
Proof.
  revert out. induction es as [|e es IH]; intros out Hes Hout; simpl; [done|].
  inversion Hes; subst. apply IH; [done|]. by apply step_elements.
Qed.

Lemma double_slash_element (e t : string) :
  no_slash e = true -> starts_slash t = false -> double_slash t = false ->
  double_slash (e ++ "/" ++ t) = false.
Proof.
  intros He Ht Hd. induction e as [|c e IH].
  - change (double_slash (String path.slash t) = false). simpl.
    destruct t as [|d t]; [done|]. simpl in Ht. rewrite Ht. simpl. exact Hd.
  - simpl in He. apply andb_true_iff in He as [Hc He]. apply negb_true_iff in Hc.
    specialize (IH He).
    change (double_slash (String c (e ++ "/" ++ t)) = false).
    cbn [double_slash]. destruct (e ++ "/" ++ t) as [|d r] eqn:Er; [done|].
    by rewrite Hc.
Qed.

Lemma double_slash_no_slash (e : string) : no_slash e = true -> double_slash e = false.
Proof.
  induction e as [|c e IH]; [done|]. simpl. intros [Hc He]%andb_true_iff.
  apply negb_true_iff in Hc. destruct e as [|d e]; [done|]. rewrite Hc. simpl.
  by apply IH.
Qed.

Lemma starts_slash_element (e t : string) :
  element e -> starts_slash (e ++ t) = false.
Proof.
  intros [Hne He]. destruct e as [|c e]; [done|]. simpl in He.
  apply andb_true_iff in He as [Hc _]. by apply negb_true_iff in Hc.
Qed.

Lemma join_elements (es : list string) :
  Forall element es ->
  starts_slash (path.join es) = false /\ double_slash (path.join es) = false.
Proof.
  induction es as [|e es IH]; intros Hes; [done|].
  inversion Hes as [|? ? He Hes']; subst. destruct (IH Hes') as [IH1 IH2].
  destruct es as [|e' es].
  - simpl. split.
    + rewrite <- (append_nil_r e). by apply starts_slash_element.
    + apply double_slash_no_slash, He.
  - change (path.join (e :: e' :: es)) with (e ++ "/" ++ path.join (e' :: es)).
    split; [by apply starts_slash_element|].
    apply double_slash_element; [apply He | done | done].
Qed.

Lemma Clean_no_double_slash (p : string) : double_slash (path.Clean p) = false.
Proof.
  unfold path.Clean. destruct (String.eqb p ""); [done|].
  set (rooted := match p with String c _ => Ascii.eqb c path.slash | _ => false end).
  assert (Hout : Forall element (rev (fold_left (path.step rooted) (path.elements p) []))).
  { apply Forall_rev, fold_step_elements; [apply elements_no_slash | constructor]. }
  destruct (join_elements _ Hout) as [H1 H2].
  destruct (String.eqb _ "") eqn:E; [done|].
  destruct rooted; [|exact H2].
  change (double_slash (String path.slash (path.join
            (rev (fold_left (path.step true) (path.elements p) [])))) = false).
  cbn [double_slash]. destruct (path.join _) as [|d r]; [done|].
  simpl in H1. rewrite H1. simpl. exact H2.
Qed.

Lemma Join_no_double_slash (a b : string) : double_slash (path.Join a b) = false.
Proof.
  unfold path.Join. destruct (String.eqb a "").
  - destruct (String.eqb b ""); [done | apply Clean_no_double_slash].
  - apply Clean_no_double_slash.
Qed.

Lemma https_double_slash (s : string) :
  HasPrefix s "https://" = true -> double_slash s = true.
Proof.
  unfold HasPrefix. intros [rest ->]%prefix_append.
  destruct rest; reflexivity.
Qed.

Lemma Join_not_https (a b : string) : HasPrefix (path.Join a b) "https://" = false.
Proof.
  destruct (HasPrefix (path.Join a b) "https://") eqn:E; [|done].
  apply https_double_slash in E. by rewrite Join_no_double_slash in E.
Qed.

Lemma prefix_of_append (a x : string) : String.prefix a (a ++ x) = true.
Proof.
  induction a as [|c a IH]; [by destruct x|].
  change (String.prefix (String c a) (String c (a ++ x)) = true).
  cbn [String.prefix]. by destruct (ascii_dec c c).
Qed.

Lemma HasPrefix_append (s a b : string) :
  HasPrefix s (a ++ b) = true -> HasPrefix s a = true.
Proof.
  unfold HasPrefix. intros [rest ->]%prefix_append.
  rewrite append_assoc. apply prefix_of_append.
Qed.

Lemma authorizeUrl_parse (env : Env) (svc : service.service) (instance : string)
    (app : model.App) :
  service.authorizeUrl env svc instance app =
  match env_url_Parse env (env_path_Join env instance "/oauth/authorize") with
  | Err err => Err err
  | Ok u =>
      Ok (env_URL_String env
            (url.set_RawQuery u (env_Values_Encode env (authorizeQuery svc app))))
  end.
Proof. reflexivity. Qed.

(** C6. A domain without a scheme is normalized by prefixing "https://", and
    that form is the one the session record, the registry key, the
    registration and the stored application carry. The authorization URL
    is not built from it as it stands: it is parsed from
    [path.Join(instance, "/oauth/authorize")], and Go's [path.Join] cleans
    what it joins, so the text parsed has lost the two slashes after the
    scheme and begins neither with "https://" nor with the normalized
    form. (The token endpoint, at line 155, is built by concatenation and
    keeps it.) *)
Theorem GetAuthUrl_authorization_path (env : Env) (svc : service.service)
    (content : Service) (ctx : context.Context) (instance : string) (w : World) :
  hasScheme instance = false ->
  (forall a b, env_path_Join env a b = path.Join a b) ->
  let n := "https://" ++ instance in
  let joined := path.Join n "/oauth/authorize" in
  service.normalize instance = n /\
  authService.GetAuthUrl env (service.NewService env svc content) ctx instance w
    = authService.GetAuthUrl env (service.NewService env svc content) ctx n w /\
  (exists evs,
      trace (snd (authService.GetAuthUrl env (service.NewService env svc content)
                    ctx instance w)) = (trace w ++ evs)%list /\
      Forall (concerns n) evs) /\
  HasPrefix n "https://" = true /\
  HasPrefix joined "https://" = false /\
  HasPrefix joined n = false /\
  (forall app,
      service.authorizeUrl env svc n app =
      match env_url_Parse env joined with
      | Err err => Err err
      | Ok u =>
          Ok (env_URL_String env
                (url.set_RawQuery u (env_Values_Encode env (authorizeQuery svc app))))
      end) /\
  (forall redirectUrl sessionID w',
      authService.GetAuthUrl env (service.NewService env svc content) ctx instance w
        = ((redirectUrl, sessionID, None), w') ->
      sessions w' !! sessionID = Some (model.mkSession sessionID n "" "") /\
      exists app u,
        apps w' !! n = Some app /\
        env_url_Parse env joined = Ok u /\
        redirectUrl
        = env_URL_String env
            (url.set_RawQuery u (env_Values_Encode env (authorizeQuery svc app)))).
Proof.
  intros Hn%hasScheme_false_HasPrefix%normalize_without_https Hjoin. cbv zeta.
  set (n := "https://" ++ instance) in *.
  set (joined := path.Join n "/oauth/authorize").
  unfold authService.GetAuthUrl. cbn [iGetAuthUrl service.NewService].
  assert (Hnot : HasPrefix joined "https://" = false) by apply Join_not_https.
  assert (Hurl : forall app,
             service.authorizeUrl env svc n app =
             match env_url_Parse env joined with
             | Err err => Err err
             | Ok u =>
                 Ok (env_URL_String env
                       (url.set_RawQuery u
                          (env_Values_Encode env (authorizeQuery svc app))))
             end).
  { intros app. rewrite authorizeUrl_parse. by rewrite Hjoin. }
  split; [exact Hn|].
  split; [rewrite <- Hn; apply GetAuthUrl_normalized|].
  split; [rewrite <- Hn; apply GetAuthUrl_concerns|].
  split; [apply HasPrefix_https|]. split; [exact Hnot|]. split.
  { destruct (HasPrefix joined n) eqn:E; [|done].
    apply HasPrefix_append in E. by rewrite Hnot in E. }
  split; [exact Hurl|].
  intros redirectUrl sessionID w' (_ & Hs & app & Happ & Hauth)%GetAuthUrl_success.
  rewrite Hn in Hs, Happ, Hauth. split; [rewrite Hs; apply lookup_insert_eq|].
  rewrite Hurl in Hauth.
  destruct (env_url_Parse env joined) as [u|e]; [|done].
  injection Hauth as <-. by exists app, u.
Qed.

Lemma GetAuthUrl_authorization_path_witness :
  hasScheme "sub.example.org" = false /\
  service.normalize "sub.example.org" = "https://sub.example.org" /\
  HasPrefix (path.Join "https://sub.example.org" "/oauth/authorize")
    "https://sub.example.org" = false.
Proof.
  split; [reflexivity|].
  pose proof (GetAuthUrl_authorization_path gopath.env stub.svc stub.content
                context.Background "sub.example.org" stub.empty eq_refl
                (fun _ _ => eq_refl))
    as (H1 & _ & _ & _ & _ & H2 & _).
  split; [exact H1 | exact H2].
Defined.

(** C6 at "sub.example.org": the path joined is "https:/sub.example.org/oauth/authorize";
    with a [url.Parse] and a [URL.String] that keep the text they are given,
    that is how the redirect URL begins. *)
Example GetAuthUrl_authorization_path_evaluated :
  path.Join "https://sub.example.org" "/oauth/authorize"
    = "https:/sub.example.org/oauth/authorize" /\
  "https://sub.example.org" ++ "/oauth/token" = "https://sub.example.org/oauth/token" /\
  fst (authService.GetAuthUrl gopath.env
         (service.NewService gopath.env stub.svc stub.content)
         context.Background "sub.example.org" stub.empty)
    = ("https:/sub.example.org/oauth/authorize?client_id=client-id", "session-1", None).
Proof. repeat split; reflexivity. Qed.

(** [path.Clean] on the examples of its documentation. *)
Example Clean_documented :
  map path.Clean
    ["a/c"; "a//c"; "a/c/."; "a/c/b/.."; "/../a/c"; "/../a/b/../././/c"; "";
     "abc/def/../../.."; "/abc/def/../../.."; "abc//./../def"]
  = ["a/c"; "a/c"; "a/c"; "a/c"; "/a/c"; "/a/c"; ".";
     ".."; "/"; "def"] /\
  [path.Join "a" "b"; path.Join "a" ""; path.Join "" "b"; path.Join "" "";
   path.Join "a/b" "../../../xyz"]
  = ["a/b"; "a"; "b"; ""; "../xyz"].
Proof. split; reflexivity. Qed.
